(** * pyHik monitor: the per-sensor debounce handler and its mail dispatch

    A shallow embedding of [monitor.py]: the classes [HikCamObject] and
    [HikSensor], the event handler [HikSensor.update_callback] and the
    dispatcher [HikSensor.send_mail].

    The handler is stateful (it assigns [self._sensor_last_trigger]), it
    performs outbound effects (console prints, a snapshot fetch, an SMTP
    session, an HTTP GET) and any of the outbound calls may raise.  It is
    therefore written in a small monad that threads the sensor object,
    accumulates the effects in program order and short-circuits on an
    exception.  What the outside world answers during one invocation is an
    explicit [world] argument. *)

From Stdlib Require Import ZArith List String Ascii Bool Lia DecimalString.
From Stdlib Require DecimalZ DecimalPos.
Import ListNotations.

Local Open Scope string_scope.
Local Open Scope Z_scope.

(** ** Naive datetimes *)

Module Datetime.

(** A naive [datetime.datetime] is determined by its proleptic ordinal day,
    hour, minute, second and microsecond; it is represented by the number
    of microseconds since 0001-01-01T00:00:00.  Subtracting two naive
    datetimes yields the [timedelta] holding the difference of these
    counts, and subtracting a [timedelta] shifts the count. *)
Definition datetime := Z.
Definition timedelta := Z.

Definition us_per_second : Z := 1000000.

(** [timedelta(seconds=n)] *)
Definition timedelta_of_seconds (n : Z) : timedelta := n * us_per_second.

(** [a - b] on two datetimes *)
Definition sub (a b : datetime) : timedelta := a - b.

(** [a - d] on a datetime and a timedelta *)
Definition sub_delta (a : datetime) (d : timedelta) : datetime := a - d.

(** [d.total_seconds() > n] for an integer [n].  [total_seconds] is the
    correctly rounded quotient of the microsecond count by [10**6]; the
    rounding is monotone and the integer [n] is a float, so the quotient
    exceeds [n] exactly when the microsecond count exceeds [n * 10**6]. *)
Definition total_seconds_gt (d : timedelta) (n : Z) : bool :=
  n * us_per_second <? d.

Definition hour (t : datetime) : Z := (t / (3600 * us_per_second)) mod 24.
Definition minute (t : datetime) : Z := (t / (60 * us_per_second)) mod 60.
Definition second (t : datetime) : Z := (t / us_per_second) mod 60.

Definition digit (n : Z) : ascii := ascii_of_N (48 + Z.to_N n).

(** A zero-padded two-digit decimal field, as [%H], [%M] and [%S] print. *)
Definition two_digits (n : Z) : string :=
  String (digit (n / 10)) (String (digit (n mod 10)) EmptyString).

Definition directive (c : ascii) (t : datetime) : string :=
  if Ascii.eqb c "H" then two_digits (hour t)
  else if Ascii.eqb c "M" then two_digits (minute t)
  else if Ascii.eqb c "S" then two_digits (second t)
  else String "%" (String c EmptyString).

(** [t.strftime(fmt)], for the directives the program uses. *)
Fixpoint strftime (fmt : string) (t : datetime) : string :=
  match fmt with
  | EmptyString => EmptyString
  | String c rest =>
      if Ascii.eqb c "%" then
        match rest with
        | EmptyString => String c EmptyString
        | String d rest' => directive d t ++ strftime rest' t
        end
      else String c (strftime rest t)
  end.

End Datetime.

Import Datetime.

(** ** Objects *)

Definition bytes := list Byte.byte.

(** The [email_info] dictionary that [main] builds: five fixed keys. *)
Record email_info := {
  server : string;
  user : string;
  password : string;
  send_to : list string;
  send_from : string
}.

(** [HikCamObject]: the wrapped device's name and id ([cam.name],
    [cam.cam_id]) and the callback URL. *)
Record HikCamObject := {
  name : string;
  cam_id : string;
  callback_url : string
}.

(** [HikSensor].  [_sensor_last_trigger] holds a datetime; [None] stands
    for a blank (falsy) value, which is what the handler's truthiness test
    distinguishes. *)
Record HikSensor := {
  _cam : HikCamObject;
  _name : string;
  _id : string;
  _sensor : string;
  _channel : Z;
  _email_info : email_info;
  _sensor_last_trigger : option datetime
}.

Definition set_sensor_last_trigger (self : HikSensor) (t : datetime) : HikSensor :=
  {| _cam := _cam self; _name := _name self; _id := _id self;
     _sensor := _sensor self; _channel := _channel self;
     _email_info := _email_info self;
     _sensor_last_trigger := Some t |}.

(** [str(n)] for an integer *)
Definition str_int (n : Z) : string := NilZero.string_of_int (Z.to_int n).

(** Truthiness of a string: non-empty. *)
Definition truthy (s : string) : bool := negb (String.eqb s "").

(** [HikSensor.__init__]; [now] is what [datetime.now()] returns. *)
Definition HikSensor_init (sensor : string) (channel : Z) (cam : HikCamObject)
    (info : email_info) (now : datetime) : HikSensor :=
  {| _cam := cam;
     _name := name cam ++ " " ++ sensor ++ " " ++ str_int channel;
     _id := cam_id cam ++ "." ++ sensor ++ "." ++ str_int channel;
     _sensor := sensor;
     _channel := channel;
     _email_info := info;
     _sensor_last_trigger := Some (sub_delta now (timedelta_of_seconds 60)) |}.

(** ** The MIME message *)

Inductive MIMEPart :=
| MIMEText (text : string)
| MIMEApplication (content : bytes) (Name : string) (Content_Disposition : string).

Record MIMEMultipart := {
  From_ : string;
  To : string;
  Date : string;
  Subject : string;
  parts : list MIMEPart
}.

Definition attach (m : MIMEMultipart) (p : MIMEPart) : MIMEMultipart :=
  {| From_ := From_ m; To := To m; Date := Date m; Subject := Subject m;
     parts := (parts m ++ [p])%list |}.

Definition COMMASPACE : string := ", ".
Definition dquote : string := String (ascii_of_N 34) EmptyString.

(** ** The outside world and the effects *)

(** How the SMTP session of one [send_mail] call goes: the step that
    raises, or delivery with the dictionary of refused recipients. *)
Inductive smtp_reply :=
| ConnectRefused
| StartTlsFailed
| LoginFailed
| SendFailed
| Delivered (refused : list string).

(** [requests.get]: a response with its status code, or a transport
    exception. *)
Inductive http_reply :=
| Response (status_code : Z)
| TransportError.

(** What the collaborators answer during one handler invocation. *)
Record world := {
  sensor_state : bool;            (* fetch_attributes(sensor, channel)[0] *)
  sensor_last_update : datetime;  (* fetch_attributes(sensor, channel)[3] *)
  formatdate : string;            (* formatdate(localtime=True) *)
  get_picture : option bytes;     (* cam.get_picture(); None: it raises *)
  smtp : smtp_reply;
  requests_get : http_reply
}.

(** The same world with another SMTP answer, or another HTTP answer. *)
Definition with_smtp (w : world) (r : smtp_reply) : world :=
  {| sensor_state := sensor_state w;
     sensor_last_update := sensor_last_update w;
     formatdate := formatdate w; get_picture := get_picture w;
     smtp := r; requests_get := requests_get w |}.

Definition with_requests_get (w : world) (r : http_reply) : world :=
  {| sensor_state := sensor_state w;
     sensor_last_update := sensor_last_update w;
     formatdate := formatdate w; get_picture := get_picture w;
     smtp := smtp w; requests_get := r |}.

Inductive effect :=
| Print (line : string)
| PrintState (cam_name : string) (state : bool) (last_update : datetime)
| PrintStatus (status_code : Z)
| PrintRefused (refused : list string)
| GetPicture
| SmtpConnect (host : string) (port : Z)
| SmtpStartTls
| SmtpLogin (usr pass : string)
| SmtpSendmail (from : string) (to : list string) (msg : MIMEMultipart)
| SmtpClose
| HttpGet (url : string).

Inductive exn :=
| AttributeError
| SnapshotError
| SMTPConnectError
| SMTPStartTlsError
| SMTPAuthenticationError
| SMTPSendError
| RequestException.

Inductive result (A : Type) :=
| Ret (a : A)
| Raise (e : exn).
Arguments Ret {A} a.
Arguments Raise {A} e.

(** ** The monad: sensor object, effects in program order, exceptions *)

Module Py.

Definition M (A : Type) : Type :=
  HikSensor -> result A * HikSensor * list effect.

Definition ret {A} (a : A) : M A := fun self => (Ret a, self, []).

Definition raise {A} (e : exn) : M A := fun self => (Raise e, self, []).

Definition bind {A B} (m : M A) (k : A -> M B) : M B :=
  fun self =>
    match m self with
    | (Ret a, self1, tr1) =>
        match k a self1 with
        | (r, self2, tr2) => (r, self2, (tr1 ++ tr2)%list)
        end
    | (Raise e, self1, tr1) => (Raise e, self1, tr1)
    end.

Definition get_self : M HikSensor := fun self => (Ret self, self, []).

Definition put_self (self' : HikSensor) : M unit :=
  fun _ => (Ret tt, self', []).

Definition tell (e : effect) : M unit := fun self => (Ret tt, self, [e]).

End Py.

Import Py.

Notation "x <- m ;; k" := (bind m (fun x => k))
  (at level 61, m at next level, right associativity).
Notation "m ;; k" := (bind m (fun _ => k))
  (at level 61, right associativity).

Definition print (line : string) : M unit := tell (Print line).

(** ** [HikSensor.send_mail] *)

Definition smtp_connect (w : world) (host : string) (port : Z) : M unit :=
  tell (SmtpConnect host port) ;;
  match smtp w with
  | ConnectRefused => raise SMTPConnectError
  | _ => ret tt
  end.

Definition smtp_starttls (w : world) : M unit :=
  tell SmtpStartTls ;;
  match smtp w with
  | StartTlsFailed => raise SMTPStartTlsError
  | _ => ret tt
  end.

Definition smtp_login (w : world) (usr pass : string) : M unit :=
  tell (SmtpLogin usr pass) ;;
  match smtp w with
  | LoginFailed => raise SMTPAuthenticationError
  | _ => ret tt
  end.

Definition smtp_sendmail (w : world) (from : string) (to : list string)
    (msg : MIMEMultipart) : M (list string) :=
  tell (SmtpSendmail from to msg) ;;
  match smtp w with
  | Delivered refused => ret refused
  | _ => raise SMTPSendError
  end.

Definition cam_get_picture (w : world) : M bytes :=
  tell GetPicture ;;
  match get_picture w with
  | Some image => ret image
  | None => raise SnapshotError
  end.

Definition last_trigger_attr : M datetime :=
  self <- get_self ;;
  match _sensor_last_trigger self with
  | Some t => ret t
  | None => raise AttributeError
  end.

Definition send_mail (w : world) : M unit :=
  self <- get_self ;;
  let send_from := send_from (_email_info self) in
  let send_to := send_to (_email_info self) in
  let server := server (_email_info self) in
  let user := user (_email_info self) in
  let password := password (_email_info self) in
  last_trigger <- last_trigger_attr ;;
  let triggerTime := strftime "%H:%M:%S" last_trigger in
  let fFtiggerTime := strftime "%H-%M-%S" last_trigger in
  let msg :=
    {| From_ := send_from;
       To := String.concat COMMASPACE send_to;
       Date := formatdate w;
       Subject := "Motion detected at " ++ _name self;
       parts := [] |} in
  let msg :=
    attach msg
      (MIMEText ("Motion detected at " ++ _name self ++ " at " ++ triggerTime ++ ".")) in
  image <- cam_get_picture w ;;
  let part :=
    MIMEApplication image (fFtiggerTime ++ ".jpg")
      ("attachment; filename=" ++ dquote ++ fFtiggerTime ++ ".jpg" ++ dquote) in
  let msg := attach msg part in
  smtp_connect w server 587 ;;
  smtp_starttls w ;;
  smtp_login w user password ;;
  r <- smtp_sendmail w send_from send_to msg ;;
  tell (PrintRefused r) ;;
  tell SmtpClose.

(** ** [HikSensor.update_callback] *)

Definition http_get (w : world) (url : string) : M Z :=
  tell (HttpGet url) ;;
  match requests_get w with
  | Response status_code => ret status_code
  | TransportError => raise RequestException
  end.

Definition update_callback (msg : string) (w : world) : M unit :=
  self <- get_self ;;
  print ("Callback: " ++ msg) ;;
  tell (PrintState (name (_cam self)) (sensor_state w) (sensor_last_update w)) ;;
  if sensor_state w && truthy (callback_url (_cam self)) then
    let currTime := sensor_last_update w in
    match _sensor_last_trigger self with
    | Some last_trigger =>
        let difference := sub currTime last_trigger in
        if total_seconds_gt difference 60 then
          print "Updating last trigger time" ;;
          put_self (set_sensor_last_trigger self currTime) ;;
          print "Sending email." ;;
          send_mail w
        else
          print "Would not send an email now."
    | None =>
        print "Last trigger time was blank! Updating now..." ;;
        put_self (set_sensor_last_trigger self currTime)
    end ;;
    print ("Sending get request to " ++ callback_url (_cam self)) ;;
    r <- http_get w (callback_url (_cam self)) ;;
    tell (PrintStatus r)
  else
    ret tt.

(** ** Observations on one invocation *)

Definition run : Type := (result unit * HikSensor * list effect)%type.

Definition outcome (x : run) : result unit := fst (fst x).
Definition sensor_after (x : run) : HikSensor := snd (fst x).
Definition effects (x : run) : list effect := snd x.

(** The handler announces the call of [send_mail] on the console; that
    line marks an invocation that fires. *)
Definition is_fire_mark (e : effect) : bool :=
  match e with
  | Print line => String.eqb line "Sending email."
  | _ => false
  end.

Definition is_arm_mark (e : effect) : bool :=
  match e with
  | Print line => String.eqb line "Last trigger time was blank! Updating now..."
  | _ => false
  end.

Definition fired (tr : list effect) : bool := existsb is_fire_mark tr.
Definition armed_blank (tr : list effect) : bool := existsb is_arm_mark tr.

Definition is_console (e : effect) : bool :=
  match e with
  | Print _ | PrintState _ _ _ | PrintStatus _ | PrintRefused _ => true
  | _ => false
  end.

(** The effects that leave the process: snapshot fetch, SMTP, HTTP. *)
Definition outbound (tr : list effect) : list effect :=
  filter (fun e => negb (is_console e)) tr.

(** The messages handed to [smtp.sendmail]. *)
Definition emails (tr : list effect) : list MIMEMultipart :=
  flat_map (fun e => match e with SmtpSendmail _ _ m => [m] | _ => [] end) tr.

(** The SMTP sessions opened. *)
Definition smtp_sessions (tr : list effect) : list string :=
  flat_map (fun e => match e with SmtpConnect h _ => [h] | _ => [] end) tr.

(** The URLs fetched with [requests.get]. *)
Definition http_gets (tr : list effect) : list string :=
  flat_map (fun e => match e with HttpGet u => [u] | _ => [] end) tr.

(** [elapsed = last_observed - last_trigger_time], in microseconds. *)
Definition elapsed (w : world) (last_trigger : datetime) : timedelta :=
  sub (sensor_last_update w) last_trigger.

Definition sixty_seconds : timedelta := timedelta_of_seconds 60.

(** Delivering a sequence of events to one sensor.  The device library
    invokes the handler once per event; an exception raised by one
    invocation leaves the sensor object as that invocation left it. *)
Fixpoint deliver (events : list (string * world)) (self : HikSensor)
    : HikSensor * list effect :=
  match events with
  | [] => (self, [])
  | (msg, w) :: rest =>
      let x := update_callback msg w self in
      let '(self', tr) := deliver rest (sensor_after x) in
      (self', (effects x ++ tr)%list)
  end.

(** The timestamps of the events that fire, in delivery order. *)
Fixpoint fire_times (events : list (string * world)) (self : HikSensor)
    : list datetime :=
  match events with
  | [] => []
  | (msg, w) :: rest =>
      let x := update_callback msg w self in
      ((if fired (effects x) then [sensor_last_update w] else [])
       ++ fire_times rest (sensor_after x))%list
  end.

(** Each timestamp lies more than 60 seconds after the one before it,
    the first one after [last]. *)
Fixpoint spaced (last : datetime) (ts : list datetime) : Prop :=
  match ts with
  | [] => True
  | t :: rest => sixty_seconds < sub t last /\ spaced t rest
  end.

Definition is_active (event : string * world) : bool :=
  sensor_state (snd event).

(** ** Sample objects

    A camera as [main] wires it, a camera whose callback URL is empty, and
    worlds in which every collaborator answers normally unless stated. *)

Module Sample.

Definition seconds (n : Z) : datetime := n * us_per_second.

Definition driveway : HikCamObject :=
  {| name := "driveway"; cam_id := "DS-2CD2032";
     callback_url := "http://nas:5000/webapi/driveway" |}.

Definition mute : HikCamObject :=
  {| name := "patio"; cam_id := "DS-2CD2142"; callback_url := "" |}.

Definition mailbox : email_info :=
  {| server := "smtp.example.org"; user := "cam@example.org";
     password := "secret"; send_to := ["a@example.org"; "b@example.org"];
     send_from := "cam@example.org" |}.

(** A motion sensor on channel 1 whose last trigger value is [last]. *)
Definition sensor (cam : HikCamObject) (last : option datetime) : HikSensor :=
  {| _cam := cam;
     _name := name cam ++ " Motion 1";
     _id := cam_id cam ++ ".Motion.1";
     _sensor := "Motion"; _channel := 1;
     _email_info := mailbox;
     _sensor_last_trigger := last |}.

Definition jpeg : bytes := [Byte.xff; Byte.xd8; Byte.xff; Byte.xd9].

Definition observe (active : bool) (t : datetime) : world :=
  {| sensor_state := active; sensor_last_update := t;
     formatdate := "Tue, 03 Nov 2026 21:28:00 +0000";
     get_picture := Some jpeg; smtp := Delivered [];
     requests_get := Response 200 |}.

End Sample.

(** The file names of a message's attachments. *)
Definition attachment_names (m : MIMEMultipart) : list string :=
  flat_map (fun p => match p with
                     | MIMEApplication _ file_name _ => [file_name]
                     | MIMEText _ => []
                     end) (parts m).

Definition one_day : timedelta := timedelta_of_seconds 86400.

(** Does the character occur in the string? *)
Fixpoint has_char (c : ascii) (s : string) : bool :=
  match s with
  | EmptyString => false
  | String d rest => Ascii.eqb d c || has_char c rest
  end.

(** ** Startup: [HikCamObject.__init__] and [main] *)

(** The loaded configuration: strings, integers, lists and mappings (a
    mapping keeps its entries in order). *)
#[warnings="-register-all"]
Inductive yaml :=
| YStr (s : string)
| YInt (n : Z)
| YSeq (items : list yaml)
| YMap (entries : list (string * yaml)).

Inductive startup_exn :=
| KeyError (key : string)
| TypeError
| ConnectError (url : string).

Fixpoint assoc (key : string) (entries : list (string * yaml)) : option yaml :=
  match entries with
  | [] => None
  | (k, v) :: rest => if String.eqb k key then Some v else assoc key rest
  end.

(** [v[key]] for a string key: only a mapping can be subscripted so. *)
Definition subscript (v : yaml) (key : string) : startup_exn + yaml :=
  match v with
  | YMap entries =>
      match assoc key entries with
      | Some x => inr x
      | None => inl (KeyError key)
      end
  | _ => inl TypeError
  end.

Definition subscript2 (v : yaml) (k1 k2 : string) : startup_exn + yaml :=
  match subscript v k1 with
  | inr x => subscript x k2
  | inl e => inl e
  end.

Definition subscript4 (v : yaml) (k1 k2 k3 k4 : string) : startup_exn + yaml :=
  match subscript2 v k1 k2 with
  | inr x => subscript2 x k3 k4
  | inl e => inl e
  end.

(** One entry of the device's event states: state, channel number, count
    and time of the last update. *)
Record channel_entry := {
  ch_active : bool;
  ch_number : Z;
  ch_count : Z;
  ch_last_update : datetime
}.

(** What a connected device reports. *)
Record device := {
  dev_name : string;
  dev_id : string;
  dev_motion : bool;
  dev_event_states : list (string * list channel_entry)
}.

Inductive startup_effect :=
| PrintConfig (config : yaml)
| NewHikCamera (url : string) (port usr passw : yaml)
| StartStream (url : string)
| PrintCamera (d : device)
| AddUpdateCallback (id : string).

(** The [email_info] dictionary as [main] fills it, values as loaded. *)
Record raw_email_info := {
  raw_server : yaml;
  raw_user : yaml;
  raw_password : yaml;
  raw_send_to : yaml;
  raw_send_from : yaml
}.

Module Startup.

Definition M (A : Type) : Type := ((startup_exn + A) * list startup_effect)%type.

Definition ret {A} (a : A) : M A := (inr a, []).

Definition lift {A} (r : startup_exn + A) : M A := (r, []).

Definition tell (effs : list startup_effect) : M unit := (inr tt, effs).

Definition bind {A B} (m : M A) (k : A -> M B) : M B :=
  match m with
  | (inr a, tr1) => let '(r, tr2) := k a in (r, (tr1 ++ tr2)%list)
  | (inl e, tr1) => (inl e, tr1)
  end.

End Startup.

Notation "'let*' x ':=' m 'in' k" := (Startup.bind m (fun x => k))
  (at level 10, x name, m at level 100, k at level 200).

(** The identifier a sensor registers its handler under. *)
Definition sensor_id (cam : HikCamObject) (sensor : string) (channel : Z)
    : string :=
  cam_id cam ++ "." ++ sensor ++ "." ++ str_int channel.

Section Startup_model.

(** [str] of a list or a mapping, as [%s] prints it. *)
Variable py_repr : yaml -> string.

(** What the camera library does with [hikvision.HikCamera(url, port, user,
    passw)] and [start_stream()] is not part of this program: [connect] is
    its answer, the device, or [None] when the library raises.  The
    statements below hold for every [connect]. *)
Variable connect : string -> yaml -> yaml -> yaml -> option device.

(** ['%s' % v] *)
Definition pct_s (v : yaml) : string :=
  match v with
  | YStr s => s
  | YInt n => str_int n
  | _ => py_repr v
  end.

(** [HikCamObject.__init__] *)
Definition HikCamObject_init (url : string) (port usr passw : yaml)
    (callback : string) : Startup.M (HikCamObject * device) :=
  let* _ := Startup.tell [NewHikCamera url port usr passw] in
  match connect url port usr passw with
  | None => Startup.lift (inl (ConnectError url))
  | Some d =>
      let* _ := Startup.tell [StartStream url; PrintCamera d] in
      Startup.ret ({| name := dev_name d; cam_id := dev_id d;
                      callback_url := callback |}, d)
  end.

(** [camera.sensors.items()] unfolded into one construction per channel:
    sensor kind, channel number ([channel[1]]) and camera. *)
Definition sensor_specs (cameras : list (HikCamObject * device))
    : list (string * Z * HikCamObject) :=
  flat_map
    (fun cd : HikCamObject * device =>
       flat_map
         (fun kv : string * list channel_entry =>
            map (fun ch => (fst kv, ch_number ch, fst cd)) (snd kv))
         (dev_event_states (snd cd)))
    cameras.

(** [main], from the loaded configuration on: the file has been opened and
    parsed, and the configuration printed.  Its result: the [email_info]
    dictionary, the cameras, and the sensors constructed.  The sensor loop
    is the one of a run in which every construction returns. *)
Definition main (config : yaml)
    : Startup.M (raw_email_info * list (HikCamObject * device)
                 * list (string * Z * HikCamObject)) :=
  let* _ := Startup.tell [PrintConfig config] in
  let* PORT := Startup.lift (subscript2 config "ipCameras" "port") in
  let* USER := Startup.lift (subscript2 config "ipCameras" "user") in
  let* PASSWORD := Startup.lift (subscript2 config "ipCameras" "password") in
  let* smtp_server := Startup.lift (subscript2 config "smtp" "server") in
  let* smtp_user := Startup.lift (subscript2 config "smtp" "user") in
  let* smtp_password := Startup.lift (subscript2 config "smtp" "password") in
  let* recipients := Startup.lift (subscript2 config "smtp" "recipients") in
  let* sender := Startup.lift (subscript2 config "smtp" "user") in
  let email := {| raw_server := smtp_server; raw_user := smtp_user;
                  raw_password := smtp_password; raw_send_to := recipients;
                  raw_send_from := sender |} in
  let* nas_ip := Startup.lift (subscript2 config "nas" "ip") in
  let* nas_port := Startup.lift (subscript2 config "nas" "port") in
  let NAS_IP := pct_s nas_ip ++ ":" ++ pct_s nas_port in
  let* path := Startup.lift (subscript2 config "nas" "surveillanceStationPath") in
  let SURVEILLANCE_STATION_URL := "http://" ++ NAS_IP ++ pct_s path in
  let* ip1 := Startup.lift
                (subscript4 config "ipCameras" "cameras" "back_door" "ip") in
  let* back_door := HikCamObject_init ("http://" ++ pct_s ip1) PORT USER
                      PASSWORD (SURVEILLANCE_STATION_URL ++ "back_door") in
  let* ip2 := Startup.lift
                (subscript4 config "ipCameras" "cameras" "driveway" "ip") in
  let* driveway := HikCamObject_init ("http://" ++ pct_s ip2) PORT USER
                     PASSWORD (SURVEILLANCE_STATION_URL ++ "driveway") in
  let* ip3 := Startup.lift
                (subscript4 config "ipCameras" "cameras" "patio" "ip") in
  let* patio := HikCamObject_init ("http://" ++ pct_s ip3) PORT USER
                  PASSWORD (SURVEILLANCE_STATION_URL ++ "patio") in
  let cameras := [back_door; driveway; patio] in
  let specs := sensor_specs cameras in
  let* _ := Startup.tell
              (map (fun s : string * Z * HikCamObject =>
                      AddUpdateCallback
                        (sensor_id (snd s) (fst (fst s)) (snd (fst s))))
                   specs) in
  Startup.ret (email, cameras, specs).

End Startup_model.

(** The mail settings as the sensors use them, when the loaded values are
    strings and a list of strings. *)
Fixpoint strings_of (items : list yaml) : option (list string) :=
  match items with
  | [] => Some []
  | YStr s :: rest => option_map (cons s) (strings_of rest)
  | _ :: _ => None
  end.

Definition typed_email (raw : raw_email_info) : option email_info :=
  match raw_server raw, raw_user raw, raw_password raw, raw_send_to raw,
        raw_send_from raw with
  | YStr s, YStr u, YStr p, YSeq items, YStr f =>
      option_map (fun to => {| server := s; user := u; password := p;
                               send_to := to; send_from := f |})
                 (strings_of items)
  | _, _, _, _, _ => None
  end.

(** The [HikSensor] objects [main] constructs, in order; [now k] is what
    [datetime.now()] returns in the [k]-th construction. *)
Fixpoint entities_from (k : nat) (info : email_info) (now : nat -> datetime)
    (specs : list (string * Z * HikCamObject)) : list HikSensor :=
  match specs with
  | [] => []
  | (sensor, channel, cam) :: rest =>
      HikSensor_init sensor channel cam info (now k)
      :: entities_from (S k) info now rest
  end.

(** The identifiers registered with [add_update_callback], and the URLs of
    the streams started. *)
Definition registered (tr : list startup_effect) : list string :=
  flat_map (fun e => match e with AddUpdateCallback id => [id] | _ => [] end) tr.

Definition started (tr : list startup_effect) : list string :=
  flat_map (fun e => match e with StartStream url => [url] | _ => [] end) tr.

Definition contacted (tr : list startup_effect) : list string :=
  flat_map (fun e => match e with NewHikCamera url _ _ _ => [url] | _ => [] end)
           tr.

(** The callback URL [main] composes for a camera key. *)
Definition station_url (py_repr : yaml -> string) (config : yaml)
    (key : string) : option string :=
  match subscript2 config "nas" "ip", subscript2 config "nas" "port",
        subscript2 config "nas" "surveillanceStationPath" with
  | inr ip, inr port, inr path =>
      Some (("http://" ++ (pct_s py_repr ip ++ ":" ++ pct_s py_repr port)
             ++ pct_s py_repr path) ++ key)
  | _, _, _ => None
  end.

(** The settings [main] reads before it contacts any camera, and the
    camera keys in the order it contacts them. *)
Definition general_settings : list (string * string) :=
  [("ipCameras", "port"); ("ipCameras", "user"); ("ipCameras", "password");
   ("smtp", "server"); ("smtp", "user"); ("smtp", "password");
   ("smtp", "recipients");
   ("nas", "ip"); ("nas", "port"); ("nas", "surveillanceStationPath")].

Definition camera_keys : list string := ["back_door"; "driveway"; "patio"].

(** A configuration with the three cameras, and devices that answer. *)
Module SampleStartup.

Definition camera_section (ip : string) : yaml := YMap [("ip", YStr ip)].

Definition config : yaml :=
  YMap
    [("ipCameras",
      YMap [("port", YInt 80); ("user", YStr "admin");
            ("password", YStr "hunter2");
            ("cameras",
             YMap [("back_door", camera_section "10.0.0.11");
                   ("driveway", camera_section "10.0.0.12");
                   ("patio", camera_section "10.0.0.13")])]);
     ("smtp",
      YMap [("server", YStr "smtp.example.org");
            ("user", YStr "cam@example.org");
            ("password", YStr "secret");
            ("recipients", YSeq [YStr "a@example.org"; YStr "b@example.org"])]);
     ("nas",
      YMap [("ip", YStr "10.0.0.2"); ("port", YInt 5000);
            ("surveillanceStationPath", YStr "/webapi/")])].

(** The same configuration without the [driveway] camera. *)
Definition config_without_driveway : yaml :=
  YMap
    [("ipCameras",
      YMap [("port", YInt 80); ("user", YStr "admin");
            ("password", YStr "hunter2");
            ("cameras",
             YMap [("back_door", camera_section "10.0.0.11");
                   ("patio", camera_section "10.0.0.13")])]);
     ("smtp",
      YMap [("server", YStr "smtp.example.org");
            ("user", YStr "cam@example.org");
            ("password", YStr "secret");
            ("recipients", YSeq [YStr "a@example.org"; YStr "b@example.org"])]);
     ("nas",
      YMap [("ip", YStr "10.0.0.2"); ("port", YInt 5000);
            ("surveillanceStationPath", YStr "/webapi/")])].

Definition entry (n : Z) : channel_entry :=
  {| ch_active := false; ch_number := n; ch_count := 0; ch_last_update := 0 |}.

Definition answering (url : string) (port usr passw : yaml) : option device :=
  Some {| dev_name := "cam " ++ url; dev_id := "id " ++ url;
          dev_motion := true;
          dev_event_states := [("Motion", [entry 1]);
                               ("Line Crossing", [entry 1; entry 2])] |}.

Definition repr (v : yaml) : string := "<container>".

Definition clock (k : nat) : datetime := Sample.seconds (1000 + Z.of_nat k).

(** The sensors constructed by a run of [main] (none when it raised). *)
Definition specs_of
    (run : Startup.M (raw_email_info * list (HikCamObject * device)
                      * list (string * Z * HikCamObject)))
    : list (string * Z * HikCamObject) :=
  match fst run with
  | inr (_, _, specs) => specs
  | inl _ => []
  end.

End SampleStartup.

(** ** Proof support *)

Ltac unfold_handler :=
  unfold update_callback, send_mail, last_trigger_attr, cam_get_picture,
    smtp_connect, smtp_starttls, smtp_login, smtp_sendmail, http_get, print,
    bind, tell, ret, raise, get_self, put_self,
    outcome, sensor_after, effects.

Ltac reduce_handler :=
  cbn -[strftime Z.mul Z.ltb Z.sub Z.leb total_seconds_gt truthy].

Lemma total_seconds_gt_60 (d : timedelta) :
  total_seconds_gt d 60 = true <-> sixty_seconds < d.
Proof.
  unfold total_seconds_gt, sixty_seconds, timedelta_of_seconds.
  apply Z.ltb_lt.
Qed.

Lemma total_seconds_not_gt_60 (d : timedelta) :
  total_seconds_gt d 60 = false <-> d <= sixty_seconds.
Proof.
  unfold total_seconds_gt, sixty_seconds, timedelta_of_seconds.
  apply Z.ltb_ge.
Qed.

Ltac arith_facts :=
  repeat match goal with
  | H : total_seconds_gt _ 60 = true |- _ => apply total_seconds_gt_60 in H
  | H : total_seconds_gt _ 60 = false |- _ => apply total_seconds_not_gt_60 in H
  end;
  unfold elapsed, sixty_seconds, timedelta_of_seconds, sub, sub_delta,
    us_per_second in *.

Ltac same_record :=
  repeat match goal with
  | H : Some ?a = Some ?b |- _ =>
      injection H as H; first [subst a | subst b]
  | H : None = Some _ |- _ => discriminate H
  | H : Some _ = None |- _ => discriminate H
  end.

(** Case analysis of one invocation, following the handler's branches. *)
Ltac handler_cases w self :=
  unfold_handler;
  let t0 := fresh "t0" in
  destruct (sensor_state w) eqn:Hactive; reduce_handler;
  [ destruct (truthy (callback_url (_cam self))) eqn:Hurl; reduce_handler;
    [ destruct (_sensor_last_trigger self) as [t0|] eqn:Hlast; reduce_handler;
      [ destruct (total_seconds_gt (sub (sensor_last_update w) t0) 60) eqn:Hgt;
        reduce_handler;
        [ destruct (get_picture w) eqn:Hpic; reduce_handler;
          [ destruct (smtp w) eqn:Hsmtp; reduce_handler;
            try (destruct (requests_get w) eqn:Hget; reduce_handler)
          | ]
        | destruct (requests_get w) eqn:Hget; reduce_handler ]
      | destruct (requests_get w) eqn:Hget; reduce_handler ]
    | ]
  | ].

(** ** Inactive events *)

(** C5. An event whose sensor state is inactive does nothing beyond the two
    console lines every invocation prints: the handler returns normally,
    the sensor object (hence its last trigger time) is unchanged, nothing
    fires and there is no outbound effect, whatever the prior state. *)
Theorem inactive_event_does_nothing :
  forall (msg : string) (w : world) (self : HikSensor),
    sensor_state w = false ->
    update_callback msg w self =
      (Ret tt, self,
       [Print ("Callback: " ++ msg);
        PrintState (name (_cam self)) false (sensor_last_update w)])
    /\ _sensor_last_trigger (sensor_after (update_callback msg w self))
       = _sensor_last_trigger self
    /\ fired (effects (update_callback msg w self)) = false
    /\ outbound (effects (update_callback msg w self)) = [].
Proof.
  intros msg w self Hoff.
  assert (E : update_callback msg w self =
      (Ret tt, self,
       [Print ("Callback: " ++ msg);
        PrintState (name (_cam self)) false (sensor_last_update w)])).
  { unfold_handler. rewrite Hoff. reflexivity. }
  rewrite E. repeat split; reflexivity.
Qed.

Lemma inactive_event_does_nothing_witness :
  sensor_state (Sample.observe false (Sample.seconds 500)) = false
  /\ fired (effects (update_callback "DS-2CD2032.Motion.1"
                       (Sample.observe false (Sample.seconds 500))
                       (Sample.sensor Sample.driveway (Some 0)))) = false.
Proof.
  split; [reflexivity|].
  apply (inactive_event_does_nothing "DS-2CD2032.Motion.1"
           (Sample.observe false (Sample.seconds 500))
           (Sample.sensor Sample.driveway (Some 0))).
  reflexivity.
Defined.

(** ** Frame and record lemmas *)

(** The sensor object changes only in its last trigger value. *)
Lemma update_callback_frame (msg : string) (w : world) (self : HikSensor) :
  let self' := sensor_after (update_callback msg w self) in
  _cam self' = _cam self /\ _name self' = _name self /\ _id self' = _id self
  /\ _sensor self' = _sensor self /\ _channel self' = _channel self
  /\ _email_info self' = _email_info self.
Proof.
  handler_cases w self; repeat split; reflexivity.
Qed.

(** A stored last trigger value stays stored, never decreases, and the
    blank branch is not taken. *)
Lemma update_callback_keeps_record (msg : string) (w : world)
    (self : HikSensor) (t : datetime) :
  _sensor_last_trigger self = Some t ->
  exists t',
    _sensor_last_trigger (sensor_after (update_callback msg w self)) = Some t'
    /\ t <= t'
    /\ armed_blank (effects (update_callback msg w self)) = false.
Proof.
  intros Hsome.
  handler_cases w self; same_record; try congruence; arith_facts;
    eexists;
    (split; [first [eassumption | reflexivity] | split; [lia | reflexivity]]).
Qed.

(** ** Sequences of events *)

Lemma deliver_cons (msg : string) (w : world) (rest : list (string * world))
    (self : HikSensor) :
  deliver ((msg, w) :: rest) self =
    (fst (deliver rest (sensor_after (update_callback msg w self))),
     (effects (update_callback msg w self)
      ++ snd (deliver rest (sensor_after (update_callback msg w self))))%list).
Proof.
  cbn [deliver].
  destruct (deliver rest (sensor_after (update_callback msg w self))).
  reflexivity.
Qed.

Lemma deliver_frame (events : list (string * world)) :
  forall self,
    _cam (fst (deliver events self)) = _cam self
    /\ _name (fst (deliver events self)) = _name self
    /\ _id (fst (deliver events self)) = _id self.
Proof.
  induction events as [|[msg w] rest IH]; intros self.
  - repeat split; reflexivity.
  - rewrite deliver_cons. cbn [fst].
    destruct (IH (sensor_after (update_callback msg w self))) as (Hc & Hn & Hi).
    destruct (update_callback_frame msg w self) as (Hc' & Hn' & Hi' & _).
    repeat split; congruence.
Qed.

Lemma deliver_keeps_record (events : list (string * world)) :
  forall self t,
    _sensor_last_trigger self = Some t ->
    exists t',
      _sensor_last_trigger (fst (deliver events self)) = Some t'
      /\ t <= t'
      /\ armed_blank (snd (deliver events self)) = false.
Proof.
  induction events as [|[msg w] rest IH]; intros self t Hsome.
  - exists t. repeat split; [assumption | lia].
  - rewrite deliver_cons. cbn [fst snd].
    destruct (update_callback_keeps_record msg w self t Hsome)
      as (t1 & Hstep & Hle1 & Hquiet1).
    destruct (IH _ t1 Hstep) as (t2 & Hrest & Hle2 & Hquiet2).
    exists t2. repeat split; [assumption | lia |].
    unfold armed_blank in *. rewrite existsb_app, Hquiet1, Hquiet2.
    reflexivity.
Qed.

(** C6. A sensor object carries one last trigger value, and an invocation
    never changes which channel the object stands for; once the value is
    set, every sequence of handler invocations leaves it set to a
    timestamp greater than or equal to the stored one. *)
Theorem last_trigger_time_monotone :
  forall (events : list (string * world)) (self : HikSensor) (t : datetime),
    _sensor_last_trigger self = Some t ->
    _id (fst (deliver events self)) = _id self
    /\ exists t',
         _sensor_last_trigger (fst (deliver events self)) = Some t'
         /\ t <= t'.
Proof.
  intros events self t Hsome. split.
  - apply deliver_frame.
  - destruct (deliver_keeps_record events self t Hsome) as (t' & H1 & H2 & _).
    exists t'. split; assumption.
Qed.

Lemma last_trigger_time_monotone_witness :
  exists t',
    _sensor_last_trigger
      (fst (deliver
              [("m", Sample.observe true (Sample.seconds 30));
               ("m", Sample.observe false (Sample.seconds 40));
               ("m", Sample.observe true (Sample.seconds 75));
               ("m", Sample.observe true (Sample.seconds 10))]
              (Sample.sensor Sample.driveway (Some 0)))) = Some t'
    /\ 0 <= t'.
Proof.
  apply (last_trigger_time_monotone
           [("m", Sample.observe true (Sample.seconds 30));
            ("m", Sample.observe false (Sample.seconds 40));
            ("m", Sample.observe true (Sample.seconds 75));
            ("m", Sample.observe true (Sample.seconds 10))]
           (Sample.sensor Sample.driveway (Some 0)) 0).
  reflexivity.
Defined.

(** C9. A sensor built by the constructor holds a datetime (construction
    time minus 60 seconds), and from there every sequence of handler
    invocations keeps a datetime stored and never takes the branch for a
    blank last trigger value. *)
Theorem blank_branch_unreachable :
  forall (sensor : string) (channel : Z) (cam : HikCamObject)
         (info : email_info) (now : datetime)
         (events : list (string * world)),
    _sensor_last_trigger (HikSensor_init sensor channel cam info now)
      = Some (sub_delta now (timedelta_of_seconds 60))
    /\ (exists t,
          _sensor_last_trigger
            (fst (deliver events (HikSensor_init sensor channel cam info now)))
          = Some t)
    /\ armed_blank
         (snd (deliver events (HikSensor_init sensor channel cam info now)))
       = false.
Proof.
  intros sensor channel cam info now events.
  split; [reflexivity|].
  destruct (deliver_keeps_record events
              (HikSensor_init sensor channel cam info now)
              (sub_delta now (timedelta_of_seconds 60)) eq_refl)
    as (t & Hsome & _ & Hquiet).
  split; [exists t|]; assumption.
Qed.

(** ** The 60-second rule *)



(** ** The first active event *)

(** C2 (as the handler implements it). The arm-without-firing step belongs
    to a sensor whose last trigger value is blank: there an active event
    (callback URL non-empty) stores [last_observed] and hands no message to
    SMTP.  A sensor built by the constructor is not in that state: it
    stores construction time minus 60 seconds, so its first active
    observation fires exactly when [last_observed] is later than the
    construction time, storing [last_observed]; otherwise it is suppressed
    and the stored value stays. *)
Theorem first_active_event_after_init :
  forall (msg : string) (w : world),
    sensor_state w = true ->
    (forall self : HikSensor,
       truthy (callback_url (_cam self)) = true ->
       _sensor_last_trigger self = None ->
       _sensor_last_trigger (sensor_after (update_callback msg w self))
         = Some (sensor_last_update w)
       /\ armed_blank (effects (update_callback msg w self)) = true
       /\ fired (effects (update_callback msg w self)) = false
       /\ emails (effects (update_callback msg w self)) = [])
    /\ (forall (sensor : string) (channel : Z) (cam : HikCamObject)
               (info : email_info) (now : datetime),
          truthy (callback_url cam) = true ->
          (fired (effects (update_callback msg w
                             (HikSensor_init sensor channel cam info now))) = true
             <-> now < sensor_last_update w)
          /\ armed_blank
               (effects (update_callback msg w
                           (HikSensor_init sensor channel cam info now))) = false
          /\ _sensor_last_trigger
               (sensor_after (update_callback msg w
                                (HikSensor_init sensor channel cam info now)))
             = Some (if now <? sensor_last_update w
                     then sensor_last_update w
                     else sub_delta now (timedelta_of_seconds 60))).
Proof.
  intros msg w Hon. split.
  - intros self Hurl0 Hblank.
    handler_cases w self; try discriminate; repeat split; reflexivity.
  - intros sensor channel cam info now Hurl0.
    set (self := HikSensor_init sensor channel cam info now).
    assert (Hcam : _cam self = cam) by reflexivity.
    assert (Hinit : _sensor_last_trigger self
                    = Some (sub_delta now (timedelta_of_seconds 60)))
      by reflexivity.
    clearbody self.
    handler_cases w self; same_record; try discriminate; try congruence.
    all: arith_facts.
    all: destruct (Z.ltb_spec now (sensor_last_update w)); try lia.
    all: repeat split; intros; try reflexivity; try discriminate; try lia.
    all: rewrite Hlast; reflexivity.
Qed.

Lemma first_active_event_after_init_witness :
  sensor_state (Sample.observe true (Sample.seconds 1001)) = true
  /\ truthy (callback_url Sample.driveway) = true
  /\ (fired (effects (update_callback "m"
                        (Sample.observe true (Sample.seconds 1001))
                        (HikSensor_init "Motion" 1 Sample.driveway
                           Sample.mailbox (Sample.seconds 1000)))) = true
      <-> Sample.seconds 1000
          < sensor_last_update (Sample.observe true (Sample.seconds 1001))).
Proof.
  split; [reflexivity|]. split; [reflexivity|].
  exact (proj1 (proj2 (first_active_event_after_init "m"
                         (Sample.observe true (Sample.seconds 1001)) eq_refl)
                 "Motion" 1 Sample.driveway Sample.mailbox
                 (Sample.seconds 1000) eq_refl)).
Defined.

(** C2 as stated fails: a sensor constructed at second 1000 whose first
    active observation is stamped second 1001 fires on it, sending one
    message. *)
Lemma startup_observation_fires :
  sensor_state (Sample.observe true (Sample.seconds 1001)) = true
  /\ fired (effects (update_callback "m"
                       (Sample.observe true (Sample.seconds 1001))
                       (HikSensor_init "Motion" 1 Sample.driveway
                          Sample.mailbox (Sample.seconds 1000)))) = true
  /\ List.length (emails (effects (update_callback "m"
                       (Sample.observe true (Sample.seconds 1001))
                       (HikSensor_init "Motion" 1 Sample.driveway
                          Sample.mailbox (Sample.seconds 1000))))) = 1%nat
  /\ armed_blank (effects (update_callback "m"
                       (Sample.observe true (Sample.seconds 1001))
                       (HikSensor_init "Motion" 1 Sample.driveway
                          Sample.mailbox (Sample.seconds 1000)))) = false.
Proof. repeat split; reflexivity. Qed.

(** ** What one invocation sends *)

(** C3 (as the handler implements it). One invocation opens at most one
    SMTP session, hands at most one message to it and issues at most one
    HTTP GET: nothing is retried.  A message is sent only by an invocation
    that fires; when it fires and the snapshot and the SMTP session go
    through, there is exactly one session, one message and one GET of the
    callback URL.  The GET is not tied to firing: an active event that does
    not fire (callback URL non-empty) issues exactly one GET as well, and
    an inactive event or an empty callback URL issues none. *)
Theorem email_and_get_per_invocation :
  forall (msg : string) (w : world) (self : HikSensor),
    let tr := effects (update_callback msg w self) in
    ((List.length (smtp_sessions tr) <= 1)%nat
     /\ (List.length (emails tr) <= 1)%nat
     /\ (List.length (http_gets tr) <= 1)%nat)
    /\ (fired tr = false -> smtp_sessions tr = [] /\ emails tr = [])
    /\ (fired tr = true ->
        forall image refused,
          get_picture w = Some image ->
          smtp w = Delivered refused ->
          List.length (smtp_sessions tr) = 1%nat
          /\ List.length (emails tr) = 1%nat
          /\ http_gets tr = [callback_url (_cam self)])
    /\ (fired tr = false ->
        sensor_state w = true ->
        truthy (callback_url (_cam self)) = true ->
        http_gets tr = [callback_url (_cam self)])
    /\ (sensor_state w = false \/ truthy (callback_url (_cam self)) = false ->
        http_gets tr = []).
Proof.
  intros msg w self tr. subst tr.
  handler_cases w self.
  all: split; [repeat split; cbn; lia |].
  all: split; [intros Hf; try discriminate Hf; (split; reflexivity) |].
  all: split;
    [ intros Hf img rf Hi Hr; try discriminate Hf; try discriminate Hi;
      try discriminate Hr; repeat split; reflexivity |].
  all: split;
    [ intros Hf Ha Hu; try discriminate Hf; try discriminate Ha;
      try discriminate Hu; reflexivity |].
  all: intros [Hx | Hx]; try discriminate Hx; reflexivity.
Qed.

Lemma email_and_get_per_invocation_witness :
  fired (effects (update_callback "m"
                    (Sample.observe true (Sample.seconds 61))
                    (Sample.sensor Sample.driveway (Some 0)))) = true
  /\ List.length
       (emails (effects (update_callback "m"
                           (Sample.observe true (Sample.seconds 61))
                           (Sample.sensor Sample.driveway (Some 0))))) = 1%nat
  /\ http_gets (effects (update_callback "m"
                           (Sample.observe true (Sample.seconds 61))
                           (Sample.sensor Sample.driveway (Some 0))))
     = ["http://nas:5000/webapi/driveway"].
Proof.
  split; [reflexivity|].
  exact (proj2 (proj1 (proj2 (proj2 (email_and_get_per_invocation "m"
                  (Sample.observe true (Sample.seconds 61))
                  (Sample.sensor Sample.driveway (Some 0)))))
                 eq_refl Sample.jpeg [] eq_refl eq_refl)).
Defined.

(** C3 as stated fails: an active event 30 seconds after the last trigger
    is suppressed (no message), and the handler still issues the HTTP GET
    of the callback URL. *)
Lemma suppressed_event_still_issues_get :
  fired (effects (update_callback "m"
                    (Sample.observe true (Sample.seconds 30))
                    (Sample.sensor Sample.driveway (Some 0)))) = false
  /\ emails (effects (update_callback "m"
                        (Sample.observe true (Sample.seconds 30))
                        (Sample.sensor Sample.driveway (Some 0)))) = []
  /\ outbound (effects (update_callback "m"
                          (Sample.observe true (Sample.seconds 30))
                          (Sample.sensor Sample.driveway (Some 0))))
     = [HttpGet "http://nas:5000/webapi/driveway"].
Proof. repeat split; reflexivity. Qed.

(** ** The HTTP callback *)

(** C4 (as the handler implements it). The answer to the GET never changes
    which SMTP sessions are opened, which messages are sent or what the
    sensor stores.  A response is only printed, whatever its status code:
    if the handler raises although the GET got a response, the exception
    comes from the mail path of a firing invocation and no GET was issued.
    A transport exception of the GET is not caught: whenever the GET is
    issued and raises, the handler raises it to its caller. *)
Theorem callback_get_outcome :
  forall (msg : string) (w : world) (self : HikSensor),
    let x := update_callback msg w self in
    (forall h : http_reply,
       smtp_sessions (effects (update_callback msg (with_requests_get w h) self))
         = smtp_sessions (effects x)
       /\ emails (effects (update_callback msg (with_requests_get w h) self))
          = emails (effects x)
       /\ sensor_after (update_callback msg (with_requests_get w h) self)
          = sensor_after x)
    /\ (forall code e,
          requests_get w = Response code ->
          outcome x = Raise e ->
          e <> RequestException
          /\ fired (effects x) = true
          /\ http_gets (effects x) = [])
    /\ (forall code,
          requests_get w = Response code ->
          http_gets (effects x) <> [] ->
          outcome x = Ret tt
          /\ In (PrintStatus code) (effects x))
    /\ (requests_get w = TransportError ->
        http_gets (effects x) <> [] ->
        outcome x = Raise RequestException).
Proof.
  intros msg w self x. subst x.
  split.
  - intros h. unfold with_requests_get. unfold_handler.
    cbn [sensor_state sensor_last_update formatdate get_picture smtp
         requests_get].
    destruct h; handler_cases w self; repeat split; reflexivity.
  - handler_cases w self.
    all: split;
      [ intros code e Hr Ho;
        first [ discriminate Hr | discriminate Ho
              | injection Ho as <-; repeat split;
                try reflexivity; discriminate ] |].
    all: split;
      [ intros code Hr Hg;
        first [ discriminate Hr
              | exfalso; apply Hg; reflexivity
              | injection Hr as <-; split; [reflexivity | cbn; tauto] ] |].
    all: intros Hr Hg;
      first [ discriminate Hr | exfalso; apply Hg; reflexivity | reflexivity ].
Qed.

Lemma callback_get_outcome_witness :
  requests_get (with_requests_get (Sample.observe true (Sample.seconds 61))
                  (Response 500)) = Response 500
  /\ outcome (update_callback "m"
                (with_requests_get (Sample.observe true (Sample.seconds 61))
                   (Response 500))
                (Sample.sensor Sample.driveway (Some 0))) = Ret tt
  /\ In (PrintStatus 500)
        (effects (update_callback "m"
                    (with_requests_get (Sample.observe true (Sample.seconds 61))
                       (Response 500))
                    (Sample.sensor Sample.driveway (Some 0)))).
Proof.
  split; [reflexivity|].
  apply (proj1 (proj2 (proj2 (callback_get_outcome "m"
                  (with_requests_get (Sample.observe true (Sample.seconds 61))
                     (Response 500))
                  (Sample.sensor Sample.driveway (Some 0)))))
           500 eq_refl).
  discriminate.
Defined.

(** C4 as stated fails: when the GET of a suppressed active event raises a
    transport exception, the handler raises it to its caller. *)
Lemma callback_transport_error_is_raised :
  requests_get (with_requests_get (Sample.observe true (Sample.seconds 30))
                  TransportError) = TransportError
  /\ update_callback "m"
       (with_requests_get (Sample.observe true (Sample.seconds 30))
          TransportError)
       (Sample.sensor Sample.driveway (Some 0))
     = (Raise RequestException,
        Sample.sensor Sample.driveway (Some 0),
        [Print "Callback: m";
         PrintState "driveway" true (Sample.seconds 30);
         Print "Would not send an email now.";
         Print "Sending get request to http://nas:5000/webapi/driveway";
         HttpGet "http://nas:5000/webapi/driveway"]).
Proof. split; reflexivity. Qed.

(** ** The same event twice *)

(** C7. Deliver an active event and then, immediately, an active event
    with the identical timestamp, from any state of the sensor and whatever
    the collaborators answer: the second delivery never fires and sends no
    message, so the two deliveries together fire at most once and send at
    most one message.  Whenever the first delivery stored the timestamp (it
    fired, or it found a blank value), the elapsed time seen by the second
    is 0. *)
Theorem same_event_twice_fires_at_most_once :
  forall (msg1 msg2 : string) (w1 w2 : world) (self : HikSensor),
    sensor_state w1 = true ->
    sensor_state w2 = true ->
    sensor_last_update w2 = sensor_last_update w1 ->
    let x1 := update_callback msg1 w1 self in
    let x2 := update_callback msg2 w2 (sensor_after x1) in
    fired (effects x2) = false
    /\ emails (effects x2) = []
    /\ (List.length (filter is_fire_mark (effects x1 ++ effects x2)) <= 1)%nat
    /\ (List.length (emails (effects x1 ++ effects x2)) <= 1)%nat
    /\ (fired (effects x1) = true \/ armed_blank (effects x1) = true ->
        exists t, _sensor_last_trigger (sensor_after x1) = Some t
                  /\ elapsed w2 t = 0).
Proof.
  intros msg1 msg2 w1 w2 self Hon1 Hon2 Hsame x1 x2.
  assert (Hsecond : fired (effects x2) = false /\ emails (effects x2) = []
                    /\ filter is_fire_mark (effects x2) = []).
  { subst x2.
    assert (Hafter :
      sensor_after x1 = self
      \/ (_cam (sensor_after x1) = _cam self
          /\ _sensor_last_trigger (sensor_after x1)
             = Some (sensor_last_update w1))).
    { subst x1. handler_cases w1 self; auto. }
    assert (Hfirst :
      sensor_after x1 = self ->
      truthy (callback_url (_cam self)) = true ->
      forall t, _sensor_last_trigger self = Some t ->
                total_seconds_gt (sub (sensor_last_update w1) t) 60 = false).
    { subst x1. intros Hs Hu t Ht. revert Hs.
      handler_cases w1 self; same_record; intros Hs;
        first [ congruence
              | exfalso; apply (f_equal _sensor_last_trigger) in Hs;
                cbn in Hs; rewrite Hlast in Hs; same_record;
                arith_facts; lia ]. }
    destruct Hafter as [Hkeep | [Hcam Hset]].
    - rewrite Hkeep. specialize (Hfirst Hkeep).
      handler_cases w2 self; try congruence; try (repeat split; reflexivity).
      all: exfalso; specialize (Hfirst eq_refl _ eq_refl);
        rewrite Hsame in Hgt; congruence.
    - set (self1 := sensor_after x1) in *. clearbody self1.
      handler_cases w2 self1; same_record; try congruence;
        try (repeat split; reflexivity).
      all: exfalso; rewrite Hsame in Hgt; arith_facts; lia. }
  destruct Hsecond as (Hf2 & He2 & Hm2).
  split; [assumption|]. split; [assumption|].
  split.
  { rewrite filter_app, Hm2, app_nil_r. subst x1.
    handler_cases w1 self; cbn; lia. }
  split.
  { unfold emails in *. rewrite flat_map_app, He2, app_nil_r. subst x1.
    handler_cases w1 self; cbn; lia. }
  subst x1. clear x2 Hf2 He2 Hm2.
  handler_cases w1 self; intros [Hx | Hx]; try discriminate Hx.
  all: eexists; split; [reflexivity | unfold elapsed, sub; lia].
Qed.

Lemma same_event_twice_fires_at_most_once_witness :
  fired (effects (update_callback "m"
                    (Sample.observe true (Sample.seconds 75))
                    (Sample.sensor Sample.driveway (Some 0)))) = true
  /\ fired (effects (update_callback "m"
                       (Sample.observe true (Sample.seconds 75))
                       (sensor_after
                          (update_callback "m"
                             (Sample.observe true (Sample.seconds 75))
                             (Sample.sensor Sample.driveway (Some 0))))))
     = false.
Proof.
  split; [reflexivity|].
  exact (proj1 (same_event_twice_fires_at_most_once "m" "m"
                  (Sample.observe true (Sample.seconds 75))
                  (Sample.observe true (Sample.seconds 75))
                  (Sample.sensor Sample.driveway (Some 0))
                  eq_refl eq_refl eq_refl)).
Defined.

(** ** The message *)

Lemma hour_range (t : datetime) : 0 <= hour t < 24.
Proof. unfold hour. apply Z.mod_pos_bound. lia. Qed.

Lemma minute_range (t : datetime) : 0 <= minute t < 60.
Proof. unfold minute. apply Z.mod_pos_bound. lia. Qed.

Lemma second_range (t : datetime) : 0 <= second t < 60.
Proof. unfold second. apply Z.mod_pos_bound. lia. Qed.

Lemma strftime_clock (t : datetime) :
  strftime "%H:%M:%S" t
  = two_digits (hour t) ++ ":" ++ two_digits (minute t) ++ ":"
    ++ two_digits (second t).
Proof. reflexivity. Qed.

Lemma strftime_file (t : datetime) :
  strftime "%H-%M-%S" t
  = two_digits (hour t) ++ "-" ++ two_digits (minute t) ++ "-"
    ++ two_digits (second t).
Proof. reflexivity. Qed.

(** C8. Every message the handler hands to [sendmail] has the subject
    "Motion detected at <name>", where <name> is the sensor's composed name
    (camera name, sensor kind and channel, separated by spaces, for a
    sensor built by the constructor); its parts are a plain text naming the
    sensor and the trigger time as HH:MM:SS, and one attachment named
    HH-MM-SS.jpg, both from the timestamp of the deciding event.  The
    attached bytes are those returned by the snapshot fetch of this very
    invocation, which is made after the decision to fire and before which
    the invocation has no outbound effect. *)
Theorem sent_email_content :
  forall (msg : string) (w : world) (self : HikSensor)
         (from : string) (to : list string) (m : MIMEMultipart),
    In (SmtpSendmail from to m) (effects (update_callback msg w self)) ->
    let ts := sensor_last_update w in
    Subject m = "Motion detected at " ++ _name self
    /\ (exists image,
          get_picture w = Some image
          /\ parts m =
               [MIMEText ("Motion detected at " ++ _name self ++ " at "
                          ++ strftime "%H:%M:%S" ts ++ ".");
                MIMEApplication image (strftime "%H-%M-%S" ts ++ ".jpg")
                  ("attachment; filename=" ++ dquote
                   ++ strftime "%H-%M-%S" ts ++ ".jpg" ++ dquote)])
    /\ (exists h mi s,
          (0 <= h < 24 /\ 0 <= mi < 60 /\ 0 <= s < 60)
          /\ strftime "%H:%M:%S" ts
             = two_digits h ++ ":" ++ two_digits mi ++ ":" ++ two_digits s
          /\ strftime "%H-%M-%S" ts
             = two_digits h ++ "-" ++ two_digits mi ++ "-" ++ two_digits s)
    /\ (exists pre post,
          effects (update_callback msg w self)
            = (pre ++ Print "Sending email." :: GetPicture :: post)%list
          /\ outbound pre = []
          /\ In (SmtpSendmail from to m) post
          /\ ~ In GetPicture post)
    /\ (forall sensor channel cam info now events,
          self = fst (deliver events (HikSensor_init sensor channel cam info now)) ->
          _name self = name cam ++ " " ++ sensor ++ " " ++ str_int channel).
Proof.
  intros msg w self from to m Hin ts.
  assert (Hname : forall sensor channel cam info now events,
            self = fst (deliver events (HikSensor_init sensor channel cam info now)) ->
            _name self = name cam ++ " " ++ sensor ++ " " ++ str_int channel).
  { intros sensor channel cam info now events ->.
    destruct (deliver_frame events (HikSensor_init sensor channel cam info now))
      as (_ & Hn & _).
    rewrite Hn. reflexivity. }
  assert (Hclock : exists h mi s,
            (0 <= h < 24 /\ 0 <= mi < 60 /\ 0 <= s < 60)
            /\ strftime "%H:%M:%S" ts
               = two_digits h ++ ":" ++ two_digits mi ++ ":" ++ two_digits s
            /\ strftime "%H-%M-%S" ts
               = two_digits h ++ "-" ++ two_digits mi ++ "-" ++ two_digits s).
  { exists (hour ts), (minute ts), (second ts).
    split; [|split; [apply strftime_clock | apply strftime_file]].
    split; [apply hour_range | split; [apply minute_range | apply second_range]]. }
  subst ts. revert Hin.
  handler_cases w self; intros Hin; cbn in Hin;
    repeat match goal with
    | H : _ \/ _ |- _ => destruct H
    | H : False |- _ => destruct H
    | H : _ = SmtpSendmail _ _ _ |- _ => first [discriminate H | injection H as <- <- <-]
    end.
  all: split; [reflexivity|].
  all: split; [eexists; split; reflexivity|].
  all: split; [exact Hclock|].
  all: split; [|exact Hname].
  all: eexists [_; _; _], _.
  all: split; [reflexivity|].
  all: split; [reflexivity|].
  all: split; [cbn; tauto|].
  all: cbn; intros Hp;
    repeat match goal with
    | H : _ \/ _ |- _ => destruct H
    | H : False |- _ => destruct H
    | H : _ = GetPicture |- _ => discriminate H
    end.
Qed.

Lemma sent_email_content_witness :
  exists m,
    In (SmtpSendmail "cam@example.org" ["a@example.org"; "b@example.org"] m)
       (effects (update_callback "m"
                   (Sample.observe true (Sample.seconds 47229))
                   (Sample.sensor Sample.driveway (Some 0))))
    /\ Subject m = "Motion detected at driveway Motion 1"
    /\ parts m =
         [MIMEText "Motion detected at driveway Motion 1 at 13:07:09.";
          MIMEApplication Sample.jpeg "13-07-09.jpg"
            ("attachment; filename=" ++ dquote ++ "13-07-09.jpg" ++ dquote)].
Proof.
  eexists.
  assert (Hin :
    In (SmtpSendmail "cam@example.org" ["a@example.org"; "b@example.org"]
          {| From_ := "cam@example.org";
             To := "a@example.org, b@example.org";
             Date := "Tue, 03 Nov 2026 21:28:00 +0000";
             Subject := "Motion detected at driveway Motion 1";
             parts :=
               [MIMEText "Motion detected at driveway Motion 1 at 13:07:09.";
                MIMEApplication Sample.jpeg "13-07-09.jpg"
                  ("attachment; filename=" ++ dquote ++ "13-07-09.jpg"
                   ++ dquote)] |})
       (effects (update_callback "m"
                   (Sample.observe true (Sample.seconds 47229))
                   (Sample.sensor Sample.driveway (Some 0))))).
  { vm_compute. tauto. }
  split; [exact Hin|].
  split; [exact (proj1 (sent_email_content _ _ _ _ _ _ Hin)) | reflexivity].
Defined.

(** ** A failing mail *)

(** C10. When the 60-second check passes and [send_mail] raises, the
    handler raises the same exception, the last trigger time has already
    been set to the event's timestamp, and no HTTP GET is issued for that
    event.  The failed alert consumes the window: a following active event
    at most 60 seconds later does not fire and sends no message. *)
Theorem failed_mail_consumes_window :
  forall (msg : string) (w : world) (self : HikSensor) (t : datetime) (e : exn),
    sensor_state w = true ->
    truthy (callback_url (_cam self)) = true ->
    _sensor_last_trigger self = Some t ->
    sixty_seconds < elapsed w t ->
    outcome (send_mail w (set_sensor_last_trigger self (sensor_last_update w)))
      = Raise e ->
    let x := update_callback msg w self in
    outcome x = Raise e
    /\ fired (effects x) = true
    /\ _sensor_last_trigger (sensor_after x) = Some (sensor_last_update w)
    /\ http_gets (effects x) = []
    /\ forall (msg' : string) (w' : world),
         sensor_state w' = true ->
         elapsed w' (sensor_last_update w) <= sixty_seconds ->
         fired (effects (update_callback msg' w' (sensor_after x))) = false
         /\ emails (effects (update_callback msg' w' (sensor_after x))) = [].
Proof.
  intros msg w self t e Hon Hurl0 Hsome Hlate Hmail x.
  assert (Hfirst :
    outcome x = Raise e
    /\ fired (effects x) = true
    /\ _sensor_last_trigger (sensor_after x) = Some (sensor_last_update w)
    /\ http_gets (effects x) = []).
  { subst x. revert Hmail.
    handler_cases w self; same_record; intros Hmail;
      first [ congruence
            | exfalso; arith_facts; lia
            | repeat split; solve [reflexivity | exact Hmail] ]. }
  destruct Hfirst as (Hout & Hfired & Hset & Hnoget).
  repeat (split; [assumption|]).
  intros msg' w' Hon' Hsoon.
  set (self1 := sensor_after x) in *. clearbody self1.
  handler_cases w' self1; same_record; try congruence;
    first [ split; reflexivity | exfalso; arith_facts; lia ].
Qed.

Lemma failed_mail_consumes_window_witness :
  outcome (update_callback "m"
             (with_smtp (Sample.observe true (Sample.seconds 75)) LoginFailed)
             (Sample.sensor Sample.driveway (Some 0)))
    = Raise SMTPAuthenticationError
  /\ http_gets (effects (update_callback "m"
             (with_smtp (Sample.observe true (Sample.seconds 75)) LoginFailed)
             (Sample.sensor Sample.driveway (Some 0)))) = []
  /\ fired (effects (update_callback "m"
              (Sample.observe true (Sample.seconds 90))
              (sensor_after
                 (update_callback "m"
                    (with_smtp (Sample.observe true (Sample.seconds 75))
                       LoginFailed)
                    (Sample.sensor Sample.driveway (Some 0)))))) = false.
Proof.
  pose proof (failed_mail_consumes_window "m"
                (with_smtp (Sample.observe true (Sample.seconds 75)) LoginFailed)
                (Sample.sensor Sample.driveway (Some 0)) 0
                SMTPAuthenticationError
                eq_refl eq_refl eq_refl eq_refl eq_refl)
    as (Hout & _ & _ & Hnoget & Hnext).
  split; [exact Hout|]. split; [exact Hnoget|].
  refine (proj1 (Hnext "m" (Sample.observe true (Sample.seconds 90)) eq_refl _)).
  vm_compute. discriminate.
Defined.

(** ** Spacing of the fired events *)

Lemma last_cons_default {A : Type} (l : list A) :
  forall a d : A, last (a :: l) d = last l a.
Proof.
  induction l as [|b l IH]; intros a d.
  - reflexivity.
  - change (last (a :: b :: l) d) with (last (b :: l) d).
    rewrite (IH b d), (IH b a). reflexivity.
Qed.

Lemma fire_times_cons (msg : string) (w : world)
    (rest : list (string * world)) (self : HikSensor) :
  fire_times ((msg, w) :: rest) self =
    ((if fired (effects (update_callback msg w self))
      then [sensor_last_update w] else [])
     ++ fire_times rest (sensor_after (update_callback msg w self)))%list.
Proof. reflexivity. Qed.

(** One invocation on a sensor whose last trigger time is [t]: either it
    fires, more than 60 seconds after [t], and stores the event's
    timestamp, or it does not fire and [t] stays stored. *)
Lemma update_callback_step (msg : string) (w : world) (self : HikSensor)
    (t : datetime) :
  _sensor_last_trigger self = Some t ->
  (fired (effects (update_callback msg w self)) = true
   /\ sixty_seconds < sub (sensor_last_update w) t
   /\ _sensor_last_trigger (sensor_after (update_callback msg w self))
      = Some (sensor_last_update w))
  \/ (fired (effects (update_callback msg w self)) = false
      /\ _sensor_last_trigger (sensor_after (update_callback msg w self))
         = Some t).
Proof.
  intros Hsome.
  handler_cases w self; same_record; try congruence; arith_facts;
    first [ left; split; [reflexivity | split; [lia | reflexivity]]
          | right; split; [reflexivity | first [assumption | reflexivity]] ].
Qed.

Lemma fire_times_spaced (events : list (string * world)) :
  forall (self : HikSensor) (t0 : datetime),
    _sensor_last_trigger self = Some t0 ->
    spaced t0 (fire_times events self).
Proof.
  induction events as [|[msg w] rest IH]; intros self t0 Hsome.
  - exact I.
  - rewrite fire_times_cons.
    destruct (update_callback_step msg w self t0 Hsome)
      as [(Hf & Hgap & Hnext) | (Hf & Hnext)]; rewrite Hf; cbn [app spaced].
    + split; [exact Hgap | exact (IH _ _ Hnext)].
    + exact (IH _ _ Hnext).
Qed.

(** X1. Over any sequence of events delivered to a sensor whose last
    trigger time is [t0], the events that fire are more than 60 seconds
    apart, the first of them more than 60 seconds after [t0]; the value
    stored at the end is the timestamp of the last event that fired ([t0]
    if none did); and the trace carries one fire mark per fired event. *)
Theorem fired_events_are_spaced :
  forall (events : list (string * world)) (self : HikSensor) (t0 : datetime),
    _sensor_last_trigger self = Some t0 ->
    spaced t0 (fire_times events self)
    /\ _sensor_last_trigger (fst (deliver events self))
       = Some (last (fire_times events self) t0)
    /\ List.length (filter is_fire_mark (snd (deliver events self)))
       = List.length (fire_times events self).
Proof.
  induction events as [|[msg w] rest IH]; intros self t0 Hsome.
  - repeat split; assumption.
  - rewrite fire_times_cons, deliver_cons. cbn [fst snd].
    assert (Hcount :
      List.length (filter is_fire_mark (effects (update_callback msg w self)))
      = List.length (if fired (effects (update_callback msg w self))
                     then [sensor_last_update w] else [])).
    { clear. handler_cases w self; reflexivity. }
    rewrite filter_app, !length_app, Hcount.
    destruct (update_callback_step msg w self t0 Hsome)
      as [(Hf & Hgap & Hnext) | (Hf & Hnext)];
      rewrite Hf; destruct (IH _ _ Hnext) as (Hsp & Hlast & Hlen);
      rewrite Hlen.
    + cbn [app spaced]. repeat split; try assumption.
      rewrite Hlast, last_cons_default. reflexivity.
    + cbn [app]. repeat split; assumption.
Qed.

Lemma fired_events_are_spaced_witness :
  spaced 0
    (fire_times
       [("m", Sample.observe true (Sample.seconds 30));
        ("m", Sample.observe true (Sample.seconds 75));
        ("m", Sample.observe true (Sample.seconds 90));
        ("m", Sample.observe true (Sample.seconds 140))]
       (Sample.sensor Sample.driveway (Some 0)))
  /\ fire_times
       [("m", Sample.observe true (Sample.seconds 30));
        ("m", Sample.observe true (Sample.seconds 75));
        ("m", Sample.observe true (Sample.seconds 90));
        ("m", Sample.observe true (Sample.seconds 140))]
       (Sample.sensor Sample.driveway (Some 0))
     = [Sample.seconds 75; Sample.seconds 140].
Proof.
  split; [|reflexivity].
  exact (proj1 (fired_events_are_spaced
                  [("m", Sample.observe true (Sample.seconds 30));
                   ("m", Sample.observe true (Sample.seconds 75));
                   ("m", Sample.observe true (Sample.seconds 90));
                   ("m", Sample.observe true (Sample.seconds 140))]
                  (Sample.sensor Sample.driveway (Some 0)) 0 eq_refl)).
Defined.

Lemma spaced_last (ts : list datetime) :
  forall t0, spaced t0 ts ->
             t0 + Z.of_nat (List.length ts) * sixty_seconds <= last ts t0.
Proof.
  induction ts as [|t rest IH]; intros t0 Hsp.
  - cbn. lia.
  - destruct Hsp as (Hgap & Hrest). specialize (IH t Hrest).
    rewrite last_cons_default. cbn [List.length]. unfold sub, sixty_seconds, timedelta_of_seconds,
      us_per_second in *. lia.
Qed.

(** X2. The handler rate-limits: after [n] fired events on a sensor whose last
    trigger time was [t0], the stored trigger time is at least [n] times 60
    seconds later than [t0].  So when every event of the sequence is
    stamped no later than [t_max], fewer than [(t_max - t0) / 60s + 1]
    events fire. *)
Theorem fired_events_rate_limit :
  forall (events : list (string * world)) (self : HikSensor)
         (t0 t_max : datetime),
    _sensor_last_trigger self = Some t0 ->
    (forall msg w, In (msg, w) events -> sensor_last_update w <= t_max) ->
    t0 <= t_max ->
    Z.of_nat (List.length (fire_times events self)) * sixty_seconds
      <= t_max - t0.
Proof.
  intros events self t0 t_max Hsome Hbound Hle.
  pose proof (fire_times_spaced events self t0 Hsome) as Hsp.
  pose proof (spaced_last _ _ Hsp) as Hlast.
  assert (Hmax : forall evs s d,
            (forall msg w, In (msg, w) evs -> sensor_last_update w <= t_max) ->
            d <= t_max -> last (fire_times evs s) d <= t_max).
  { clear. induction evs as [|[msg w] rest IH]; intros s d Hb Hd.
    - exact Hd.
    - rewrite fire_times_cons.
      destruct (fired (effects (update_callback msg w s))).
      + cbn [app].
        rewrite last_cons_default. apply IH.
        * intros m' w' Hin. apply (Hb m' w'). right. exact Hin.
        * apply (Hb msg w). left. reflexivity.
      + cbn [app]. apply IH; [|exact Hd].
        intros m' w' Hin. apply (Hb m' w'). right. exact Hin. }
  specialize (Hmax events self t0 Hbound Hle). lia.
Qed.

Lemma fired_events_rate_limit_witness :
  Z.of_nat (List.length
              (fire_times
                 [("m", Sample.observe true (Sample.seconds 30));
                  ("m", Sample.observe true (Sample.seconds 75));
                  ("m", Sample.observe true (Sample.seconds 90));
                  ("m", Sample.observe true (Sample.seconds 140))]
                 (Sample.sensor Sample.driveway (Some 0))))
    * sixty_seconds
  <= Sample.seconds 140 - 0.
Proof.
  apply (fired_events_rate_limit
           [("m", Sample.observe true (Sample.seconds 30));
            ("m", Sample.observe true (Sample.seconds 75));
            ("m", Sample.observe true (Sample.seconds 90));
            ("m", Sample.observe true (Sample.seconds 140))]
           (Sample.sensor Sample.driveway (Some 0)) 0 (Sample.seconds 140)).
  - reflexivity.
  - intros msg w Hin. cbn in Hin.
    repeat match goal with
    | H : _ \/ _ |- _ => destruct H
    | H : False |- _ => destruct H
    | H : (_, _) = (_, _) |- _ => injection H as <- <-
    end; vm_compute; discriminate.
  - vm_compute. discriminate.
Defined.

(** ** Events that change nothing *)

Lemma update_callback_inactive (msg : string) (w : world) (self : HikSensor) :
  sensor_state w = false ->
  update_callback msg w self =
    (Ret tt, self,
     [Print ("Callback: " ++ msg);
      PrintState (name (_cam self)) false (sensor_last_update w)]).
Proof. intros Hoff. unfold_handler. rewrite Hoff. reflexivity. Qed.

Lemma update_callback_no_url (msg : string) (w : world) (self : HikSensor) :
  truthy (callback_url (_cam self)) = false ->
  update_callback msg w self =
    (Ret tt, self,
     [Print ("Callback: " ++ msg);
      PrintState (name (_cam self)) (sensor_state w) (sensor_last_update w)]).
Proof.
  intros Hno. unfold_handler. rewrite Hno, andb_false_r. reflexivity.
Qed.

Lemma outbound_app (a b : list effect) :
  outbound (a ++ b) = (outbound a ++ outbound b)%list.
Proof. unfold outbound. apply filter_app. Qed.

(** X3. Inactive events are transparent: dropping them from a sequence of
    events changes neither the final sensor object, nor the outbound
    effects (snapshot fetches, SMTP, HTTP) in their order, nor which events
    fire. *)
Theorem inactive_events_are_transparent :
  forall (events : list (string * world)) (self : HikSensor),
    fst (deliver events self) = fst (deliver (filter is_active events) self)
    /\ outbound (snd (deliver events self))
       = outbound (snd (deliver (filter is_active events) self))
    /\ fire_times events self = fire_times (filter is_active events) self.
Proof.
  induction events as [|[msg w] rest IH]; intros self.
  - repeat split; reflexivity.
  - cbn [filter]. change (is_active (msg, w)) with (sensor_state w).
    destruct (sensor_state w) eqn:Hstate.
    + rewrite !deliver_cons, !fire_times_cons. cbn [fst snd].
      rewrite !outbound_app.
      destruct (IH (sensor_after (update_callback msg w self)))
        as (Hs & Ho & Hf).
      rewrite Hs, Ho, Hf. repeat split; reflexivity.
    + rewrite deliver_cons, fire_times_cons. cbn [fst snd].
      rewrite outbound_app.
      rewrite (update_callback_inactive msg w self Hstate).
      unfold sensor_after, effects. cbn [fst snd]. apply IH.
Qed.

(** X4. A sensor whose camera has an empty callback URL is inert: whatever
    events are delivered, the sensor object is unchanged, nothing fires and
    there is no outbound effect at all. *)
Theorem no_callback_url_is_inert :
  forall (events : list (string * world)) (self : HikSensor),
    truthy (callback_url (_cam self)) = false ->
    fst (deliver events self) = self
    /\ outbound (snd (deliver events self)) = []
    /\ fire_times events self = [].
Proof.
  induction events as [|[msg w] rest IH]; intros self Hno.
  - repeat split; reflexivity.
  - rewrite deliver_cons, fire_times_cons. cbn [fst snd].
    rewrite outbound_app.
    rewrite (update_callback_no_url msg w self Hno).
    unfold sensor_after, effects. cbn [fst snd]. apply (IH self Hno).
Qed.

Lemma no_callback_url_is_inert_witness :
  fst (deliver [("m", Sample.observe true (Sample.seconds 61));
                ("m", Sample.observe true (Sample.seconds 500))]
         (Sample.sensor Sample.mute (Some 0)))
  = Sample.sensor Sample.mute (Some 0).
Proof.
  exact (proj1 (no_callback_url_is_inert
                  [("m", Sample.observe true (Sample.seconds 61));
                   ("m", Sample.observe true (Sample.seconds 500))]
                  (Sample.sensor Sample.mute (Some 0)) eq_refl)).
Defined.

(** ** The SMTP session *)

Ltac in_cases H :=
  cbn in H;
  repeat match goal with
  | H' : _ \/ _ |- _ => destruct H'
  | H' : False |- _ => destruct H'
  | H' : _ = _ |- _ => discriminate H'
  end.

(** X5. Whatever the invocation, an SMTP session is opened to the configured
    server on port 587 only; the credentials are the configured ones and
    are sent only on a session on which STARTTLS was issued just before and
    did not fail; a message is handed over only right after a login that
    did not fail. *)
Theorem smtp_session_discipline :
  forall (msg : string) (w : world) (self : HikSensor),
    (forall host port,
       In (SmtpConnect host port) (effects (update_callback msg w self)) ->
       host = server (_email_info self) /\ port = 587)
    /\ (forall u p,
          In (SmtpLogin u p) (effects (update_callback msg w self)) ->
          u = user (_email_info self) /\ p = password (_email_info self)
          /\ smtp w <> ConnectRefused /\ smtp w <> StartTlsFailed
          /\ exists pre post,
               effects (update_callback msg w self)
               = (pre ++ SmtpConnect (server (_email_info self)) 587
                    :: SmtpStartTls :: SmtpLogin u p :: post)%list)
    /\ (forall f t m,
          In (SmtpSendmail f t m) (effects (update_callback msg w self)) ->
          smtp w <> LoginFailed
          /\ exists pre post,
               effects (update_callback msg w self)
               = (pre ++ SmtpLogin (user (_email_info self))
                           (password (_email_info self))
                    :: SmtpSendmail f t m :: post)%list).
Proof.
  intros msg w self.
  handler_cases w self.
  all: split;
    [ intros host port Hin; in_cases Hin;
      match goal with
      | H : SmtpConnect _ _ = SmtpConnect _ _ |- _ =>
          injection H as <- <-; split; reflexivity
      end |].
  all: split;
    [ intros u p Hin; in_cases Hin;
      match goal with
      | H : SmtpLogin _ _ = SmtpLogin _ _ |- _ =>
          injection H as <- <-;
          (split; [reflexivity|]); (split; [reflexivity|]);
          (split; [congruence|]); (split; [congruence|]);
          eexists [_; _; _; _; _], _; reflexivity
      end |].
  all: intros f t m Hin; in_cases Hin;
    match goal with
    | H : SmtpSendmail _ _ _ = SmtpSendmail _ _ _ |- _ =>
        injection H as <- <- <-;
        (split; [congruence|]);
        eexists [_; _; _; _; _; _; _], _; reflexivity
    end.
Qed.

Lemma smtp_session_discipline_witness :
  In (SmtpLogin "cam@example.org" "secret")
     (effects (update_callback "m"
                 (Sample.observe true (Sample.seconds 61))
                 (Sample.sensor Sample.driveway (Some 0))))
  /\ smtp (Sample.observe true (Sample.seconds 61)) <> StartTlsFailed.
Proof.
  assert (Hin :
    In (SmtpLogin "cam@example.org" "secret")
       (effects (update_callback "m"
                   (Sample.observe true (Sample.seconds 61))
                   (Sample.sensor Sample.driveway (Some 0))))).
  { vm_compute. tauto. }
  split; [exact Hin|].
  exact (proj1 (proj2 (proj2 (proj2
           (proj1 (proj2 (smtp_session_discipline "m"
                     (Sample.observe true (Sample.seconds 61))
                     (Sample.sensor Sample.driveway (Some 0))))
              _ _ Hin))))).
Defined.

(** X6. The SMTP session is closed exactly when [sendmail] returned.  When the
    session was opened and a later step raised (STARTTLS, login or
    sendmail), the handler raises without closing it. *)
Theorem smtp_session_closed_only_on_delivery :
  forall (msg : string) (w : world) (self : HikSensor),
    (In SmtpClose (effects (update_callback msg w self))
       <-> emails (effects (update_callback msg w self)) <> []
           /\ exists refused, smtp w = Delivered refused)
    /\ (smtp_sessions (effects (update_callback msg w self)) <> [] ->
        (forall refused, smtp w <> Delivered refused) ->
        ~ In SmtpClose (effects (update_callback msg w self))
        /\ http_gets (effects (update_callback msg w self)) = []
        /\ exists e, outcome (update_callback msg w self) = Raise e).
Proof.
  intros msg w self.
  handler_cases w self.
  all: split;
    [ split;
      [ intros Hin; in_cases Hin;
        (split; [discriminate | eexists; reflexivity])
      | intros (Hne & r & Hr);
        first [ exfalso; apply Hne; reflexivity
              | discriminate Hr
              | cbn; tauto ] ]
    | ].
  all: intros Hs Hnd;
    first [ exfalso; apply Hs; reflexivity
          | exfalso; eapply Hnd; reflexivity
          | split;
            [ intros Hin; in_cases Hin
            | split; [reflexivity | eexists; reflexivity] ] ].
Qed.

Lemma smtp_session_closed_only_on_delivery_witness :
  ~ In SmtpClose
      (effects (update_callback "m"
                  (with_smtp (Sample.observe true (Sample.seconds 61))
                     LoginFailed)
                  (Sample.sensor Sample.driveway (Some 0)))).
Proof.
  refine (proj1 (proj2 (smtp_session_closed_only_on_delivery "m"
                   (with_smtp (Sample.observe true (Sample.seconds 61))
                      LoginFailed)
                   (Sample.sensor Sample.driveway (Some 0))) _ _)).
  - vm_compute. discriminate.
  - intros refused. vm_compute. discriminate.
Defined.

(** X7. When the snapshot fetch of a firing invocation raises, the alert is
    lost: no SMTP session is opened, no message is sent and no HTTP GET is
    issued; the fetch is the one outbound effect, the handler raises, and
    the last trigger time is already the event's timestamp. *)
Theorem snapshot_failure_sends_nothing :
  forall (msg : string) (w : world) (self : HikSensor),
    fired (effects (update_callback msg w self)) = true ->
    get_picture w = None ->
    outcome (update_callback msg w self) = Raise SnapshotError
    /\ outbound (effects (update_callback msg w self)) = [GetPicture]
    /\ _sensor_last_trigger (sensor_after (update_callback msg w self))
       = Some (sensor_last_update w).
Proof.
  intros msg w self.
  handler_cases w self; intros Hf Hp;
    first [ discriminate Hf | discriminate Hp | repeat split; reflexivity ].
Qed.

Lemma snapshot_failure_sends_nothing_witness :
  outbound
    (effects (update_callback "m"
                {| sensor_state := true;
                   sensor_last_update := Sample.seconds 61;
                   formatdate := "now"; get_picture := None;
                   smtp := Delivered []; requests_get := Response 200 |}
                (Sample.sensor Sample.driveway (Some 0))))
  = [GetPicture].
Proof.
  exact (proj1 (proj2 (snapshot_failure_sends_nothing "m"
                  {| sensor_state := true;
                     sensor_last_update := Sample.seconds 61;
                     formatdate := "now"; get_picture := None;
                     smtp := Delivered []; requests_get := Response 200 |}
                  (Sample.sensor Sample.driveway (Some 0))
                  eq_refl eq_refl))).
Defined.

(** ** Headers and envelope *)

(** X8. Every message handed to [sendmail] goes out with the configured sender
    as envelope sender and as From header, the configured recipient list as
    envelope recipients, a To header that joins the recipients with a comma
    and a space, the date the invocation obtained, and exactly two parts.
    With an empty recipient list the To header is empty and [sendmail] is
    still called, without recipients; with a single recipient the To header
    is that address. *)
Theorem sent_email_envelope :
  forall (msg : string) (w : world) (self : HikSensor)
         (f : string) (t : list string) (m : MIMEMultipart),
    In (SmtpSendmail f t m) (effects (update_callback msg w self)) ->
    f = send_from (_email_info self)
    /\ t = send_to (_email_info self)
    /\ From_ m = send_from (_email_info self)
    /\ To m = String.concat ", " (send_to (_email_info self))
    /\ Date m = formatdate w
    /\ List.length (parts m) = 2%nat
    /\ (send_to (_email_info self) = [] -> t = [] /\ To m = "")
    /\ (forall a, send_to (_email_info self) = [a] -> To m = a).
Proof.
  intros msg w self f t m.
  handler_cases w self; intros Hin; in_cases Hin;
    match goal with
    | H : SmtpSendmail _ _ _ = SmtpSendmail _ _ _ |- _ =>
        injection H as <- <- <-
    end;
    cbn [From_ To Date parts attach];
    repeat (split; [reflexivity|]);
    (split; [intros ->; split; reflexivity | intros a ->; reflexivity]).
Qed.

Lemma sent_email_envelope_witness :
  exists m,
    In (SmtpSendmail "cam@example.org" ["a@example.org"; "b@example.org"] m)
       (effects (update_callback "m"
                   (Sample.observe true (Sample.seconds 61))
                   (Sample.sensor Sample.driveway (Some 0))))
    /\ To m = "a@example.org, b@example.org".
Proof.
  eexists.
  assert (Hin :
    In (SmtpSendmail "cam@example.org" ["a@example.org"; "b@example.org"]
          {| From_ := "cam@example.org";
             To := "a@example.org, b@example.org";
             Date := "Tue, 03 Nov 2026 21:28:00 +0000";
             Subject := "Motion detected at driveway Motion 1";
             parts :=
               [MIMEText "Motion detected at driveway Motion 1 at 00:01:01.";
                MIMEApplication Sample.jpeg "00-01-01.jpg"
                  ("attachment; filename=" ++ dquote ++ "00-01-01.jpg"
                   ++ dquote)] |})
       (effects (update_callback "m"
                   (Sample.observe true (Sample.seconds 61))
                   (Sample.sensor Sample.driveway (Some 0))))).
  { vm_compute. tauto. }
  split; [exact Hin|].
  exact (proj1 (proj2 (proj2 (proj2
           (sent_email_envelope _ _ _ _ _ _ Hin))))).
Defined.

(** ** When the handler raises *)

(** X9. The handler returns normally exactly in these cases: the event is
    inactive or the callback URL is empty; or the GET got a response and
    either the invocation did not fire or it fired and both the snapshot
    fetch and the SMTP session went through.  In every other case it
    raises. *)
Theorem handler_returns_exactly_when :
  forall (msg : string) (w : world) (self : HikSensor),
    (outcome (update_callback msg w self) = Ret tt
     <-> sensor_state w = false
         \/ truthy (callback_url (_cam self)) = false
         \/ ((exists code, requests_get w = Response code)
             /\ (fired (effects (update_callback msg w self)) = false
                 \/ ((exists image, get_picture w = Some image)
                     /\ exists refused, smtp w = Delivered refused))))
    /\ (outcome (update_callback msg w self) <> Ret tt ->
        exists e, outcome (update_callback msg w self) = Raise e).
Proof.
  intros msg w self.
  handler_cases w self.
  all: split; [| intros Hne;
                 first [ exfalso; apply Hne; reflexivity
                       | eexists; reflexivity ] ].
  all: split.
  all: try (intros _;
            first [ left; reflexivity
                  | right; left; reflexivity
                  | right; right; split;
                    [ eexists; reflexivity
                    | first [ left; reflexivity
                            | right; split; eexists; reflexivity ] ] ]).
  all: try (intros Hr; discriminate Hr).
  all: intros [Hx | [Hx | ((c & Hc) & [Hx | ((i & Hi) & (r & Hr))])]];
    try discriminate; reflexivity.
Qed.

Lemma handler_returns_exactly_when_witness :
  outcome (update_callback "m"
             (Sample.observe true (Sample.seconds 61))
             (Sample.sensor Sample.driveway (Some 0))) = Ret tt.
Proof.
  apply (proj2 (proj1 (handler_returns_exactly_when "m"
                         (Sample.observe true (Sample.seconds 61))
                         (Sample.sensor Sample.driveway (Some 0))))).
  right. right. split; [exists 200; reflexivity|].
  right. split; [exists Sample.jpeg | exists []]; reflexivity.
Defined.

(** ** Attachment names *)

Lemma digit_inj (a b : Z) :
  0 <= a < 10 -> 0 <= b < 10 -> digit a = digit b -> a = b.
Proof.
  intros Ha Hb Heq. unfold digit in Heq.
  apply (f_equal N_of_ascii) in Heq.
  rewrite !N_ascii_embedding in Heq by lia. lia.
Qed.

Lemma two_digits_inj (a b : Z) :
  0 <= a < 100 -> 0 <= b < 100 -> two_digits a = two_digits b -> a = b.
Proof.
  intros Ha Hb Heq. unfold two_digits in Heq.
  injection Heq as H1 H0.
  apply digit_inj in H0; [| apply Z.mod_pos_bound; lia ..].
  apply digit_inj in H1;
    [| split; [apply Z.div_pos; lia | apply Z.div_lt_upper_bound; lia] ..].
  rewrite (Z.div_mod a 10), (Z.div_mod b 10) by lia. lia.
Qed.

Lemma clock_fields_of_name (t1 t2 : datetime) (suffix : string) :
  strftime "%H-%M-%S" t1 ++ suffix = strftime "%H-%M-%S" t2 ++ suffix ->
  hour t1 = hour t2 /\ minute t1 = minute t2 /\ second t1 = second t2.
Proof.
  rewrite !strftime_file. unfold two_digits. cbn [append].
  intros Heq. injection Heq as H1 H2 H3 H4 H5 H6.
  pose proof (hour_range t1). pose proof (hour_range t2).
  pose proof (minute_range t1). pose proof (minute_range t2).
  pose proof (second_range t1). pose proof (second_range t2).
  repeat split; apply two_digits_inj; try lia; unfold two_digits; congruence.
Qed.

Lemma clock_fields_periodic (t : datetime) (k : Z) :
  hour (t + k * one_day) = hour t
  /\ minute (t + k * one_day) = minute t
  /\ second (t + k * one_day) = second t.
Proof.
  unfold hour, minute, second, one_day, timedelta_of_seconds, us_per_second.
  repeat split.
  - replace (t + k * (86400 * 1000000))
      with (t + (k * 24) * (3600 * 1000000)) by lia.
    rewrite Z.div_add by lia. rewrite Z.mod_add by lia. reflexivity.
  - replace (t + k * (86400 * 1000000))
      with (t + (k * 1440) * (60 * 1000000)) by lia.
    rewrite Z.div_add by lia.
    replace (t / (60 * 1000000) + k * 1440)
      with (t / (60 * 1000000) + (k * 24) * 60) by lia.
    rewrite Z.mod_add by lia. reflexivity.
  - replace (t + k * (86400 * 1000000))
      with (t + (k * 86400) * 1000000) by lia.
    rewrite Z.div_add by lia.
    replace (t / 1000000 + k * 86400)
      with (t / 1000000 + (k * 1440) * 60) by lia.
    rewrite Z.mod_add by lia. reflexivity.
Qed.

Lemma clock_fields_differ (t1 t2 : datetime) :
  sixty_seconds < sub t2 t1 ->
  sub t2 t1 <= timedelta_of_seconds 86399 ->
  hour t1 = hour t2 -> minute t1 = minute t2 -> second t1 = second t2 ->
  False.
Proof.
  unfold hour, minute, second, sixty_seconds, timedelta_of_seconds, sub,
    us_per_second.
  intros Hlo Hhi Hh Hm Hs.
  Z.to_euclidean_division_equations. lia.
Qed.

Lemma sent_attachment_name (msg : string) (w : world) (self : HikSensor)
    (f : string) (t : list string) (m : MIMEMultipart) :
  In (SmtpSendmail f t m) (effects (update_callback msg w self)) ->
  attachment_names m = [strftime "%H-%M-%S" (sensor_last_update w) ++ ".jpg"].
Proof.
  handler_cases w self; intros Hin; in_cases Hin;
    match goal with
    | H : SmtpSendmail _ _ _ = SmtpSendmail _ _ _ |- _ =>
        injection H as <- <- <-
    end; reflexivity.
Qed.

(** X10. The attachment of a message is named after the time of day of its
    event only.  Two messages whose events are a whole number of days apart
    carry the same attachment name; two messages whose events are more than
    60 seconds and at most 86399 seconds apart carry different names. *)
Theorem attachment_name_is_time_of_day :
  forall (msg1 msg2 : string) (w1 w2 : world) (self1 self2 : HikSensor)
         (f1 f2 : string) (to1 to2 : list string) (m1 m2 : MIMEMultipart),
    In (SmtpSendmail f1 to1 m1) (effects (update_callback msg1 w1 self1)) ->
    In (SmtpSendmail f2 to2 m2) (effects (update_callback msg2 w2 self2)) ->
    (forall k : Z,
       sensor_last_update w2 = sensor_last_update w1 + k * one_day ->
       attachment_names m2 = attachment_names m1)
    /\ (sixty_seconds < sub (sensor_last_update w2) (sensor_last_update w1) ->
        sub (sensor_last_update w2) (sensor_last_update w1)
          <= timedelta_of_seconds 86399 ->
        attachment_names m2 <> attachment_names m1).
Proof.
  intros msg1 msg2 w1 w2 self1 self2 f1 f2 to1 to2 m1 m2 Hin1 Hin2.
  rewrite (sent_attachment_name _ _ _ _ _ _ Hin1),
          (sent_attachment_name _ _ _ _ _ _ Hin2).
  split.
  - intros k ->. rewrite !strftime_file.
    destruct (clock_fields_periodic (sensor_last_update w1) k)
      as (-> & -> & ->).
    reflexivity.
  - intros Hlo Hhi Heq.
    apply (f_equal (fun names => hd EmptyString names)) in Heq.
    cbn [hd] in Heq.
    destruct (clock_fields_of_name _ _ _ Heq) as (Hh & Hm & Hs).
    apply (clock_fields_differ (sensor_last_update w1) (sensor_last_update w2));
      auto.
Qed.

Lemma attachment_name_is_time_of_day_witness :
  exists m1 m2,
    In (SmtpSendmail "cam@example.org" ["a@example.org"; "b@example.org"] m1)
       (effects (update_callback "m"
                   (Sample.observe true (Sample.seconds 100))
                   (Sample.sensor Sample.driveway (Some 0))))
    /\ In (SmtpSendmail "cam@example.org" ["a@example.org"; "b@example.org"] m2)
          (effects (update_callback "m"
                      (Sample.observe true (Sample.seconds 7300))
                      (Sample.sensor Sample.driveway (Some 0))))
    /\ attachment_names m2 <> attachment_names m1.
Proof.
  eexists
    {| From_ := "cam@example.org"; To := "a@example.org, b@example.org";
       Date := "Tue, 03 Nov 2026 21:28:00 +0000";
       Subject := "Motion detected at driveway Motion 1";
       parts :=
         [MIMEText "Motion detected at driveway Motion 1 at 00:01:40.";
          MIMEApplication Sample.jpeg "00-01-40.jpg"
            ("attachment; filename=" ++ dquote ++ "00-01-40.jpg" ++ dquote)] |},
    {| From_ := "cam@example.org"; To := "a@example.org, b@example.org";
       Date := "Tue, 03 Nov 2026 21:28:00 +0000";
       Subject := "Motion detected at driveway Motion 1";
       parts :=
         [MIMEText "Motion detected at driveway Motion 1 at 02:01:40.";
          MIMEApplication Sample.jpeg "02-01-40.jpg"
            ("attachment; filename=" ++ dquote ++ "02-01-40.jpg" ++ dquote)] |}.
  assert (Hin1 : In (SmtpSendmail "cam@example.org"
                       ["a@example.org"; "b@example.org"]
    {| From_ := "cam@example.org"; To := "a@example.org, b@example.org";
       Date := "Tue, 03 Nov 2026 21:28:00 +0000";
       Subject := "Motion detected at driveway Motion 1";
       parts :=
         [MIMEText "Motion detected at driveway Motion 1 at 00:01:40.";
          MIMEApplication Sample.jpeg "00-01-40.jpg"
            ("attachment; filename=" ++ dquote ++ "00-01-40.jpg" ++ dquote)] |})
       (effects (update_callback "m"
                   (Sample.observe true (Sample.seconds 100))
                   (Sample.sensor Sample.driveway (Some 0)))))
    by (vm_compute; tauto).
  assert (Hin2 : In (SmtpSendmail "cam@example.org"
                       ["a@example.org"; "b@example.org"]
    {| From_ := "cam@example.org"; To := "a@example.org, b@example.org";
       Date := "Tue, 03 Nov 2026 21:28:00 +0000";
       Subject := "Motion detected at driveway Motion 1";
       parts :=
         [MIMEText "Motion detected at driveway Motion 1 at 02:01:40.";
          MIMEApplication Sample.jpeg "02-01-40.jpg"
            ("attachment; filename=" ++ dquote ++ "02-01-40.jpg" ++ dquote)] |})
       (effects (update_callback "m"
                   (Sample.observe true (Sample.seconds 7300))
                   (Sample.sensor Sample.driveway (Some 0)))))
    by (vm_compute; tauto).
  split; [exact Hin1|]. split; [exact Hin2|].
  apply (proj2 (attachment_name_is_time_of_day _ _ _ _ _ _ _ _ _ _ _ _
                  Hin1 Hin2)).
  - vm_compute. reflexivity.
  - vm_compute. discriminate.
Defined.

(** ** Sensor identifiers *)

Lemma append_inj_l (a x y : string) : a ++ x = a ++ y -> x = y.
Proof.
  induction a as [|c a IH]; cbn [append]; intros Heq.
  - exact Heq.
  - injection Heq as Heq. apply IH. exact Heq.
Qed.

Lemma has_char_after_sep (c : ascii) (a x : string) :
  has_char c (a ++ String c x) = true.
Proof.
  induction a as [|d a IH]; cbn [append has_char].
  - rewrite Ascii.eqb_refl. reflexivity.
  - rewrite IH. apply orb_true_r.
Qed.

(** Two strings cut at a separator that occurs in neither tail agree piece
    by piece. *)
Lemma split_at_last_sep (c : ascii) (x y : string) :
  has_char c x = false -> has_char c y = false ->
  forall a b, a ++ String c x = b ++ String c y -> a = b /\ x = y.
Proof.
  intros Hx Hy.
  induction a as [|d a IH]; intros [|e b]; cbn [append]; intros Heq.
  - injection Heq as ->. split; reflexivity.
  - injection Heq as -> ->.
    rewrite has_char_after_sep in Hx. discriminate Hx.
  - injection Heq as -> <-.
    rewrite has_char_after_sep in Hy. discriminate Hy.
  - injection Heq as -> Heq. destruct (IH b Heq) as (-> & ->).
    split; reflexivity.
Qed.

Lemma uint_string_chars (c : ascii) (d : Decimal.uint) :
  has_char c "0123456789" = false ->
  has_char c (NilEmpty.string_of_uint d) = false.
Proof.
  intros Hc. cbn [has_char] in Hc.
  repeat match type of Hc with
  | (_ || _)%bool = false => apply orb_false_elim in Hc; destruct Hc as [? Hc]
  end.
  induction d; cbn [NilEmpty.string_of_uint has_char];
    try reflexivity;
    match goal with
    | |- (Ascii.eqb ?a c || _)%bool = false =>
        replace (Ascii.eqb a c) with false by (symmetry; assumption)
    end; exact IHd.
Qed.

Lemma str_int_chars (c : ascii) (n : Z) :
  has_char c "-0123456789" = false -> has_char c (str_int n) = false.
Proof.
  intros Hc. cbn [has_char] in Hc.
  apply orb_false_elim in Hc. destruct Hc as [Hminus Hdigits].
  assert (Hu : forall d, has_char c (NilZero.string_of_uint d) = false).
  { intros d. destruct d; try (apply (uint_string_chars c); exact Hdigits).
    cbn [NilZero.string_of_uint has_char].
    cbn [has_char] in Hdigits.
    apply orb_false_elim in Hdigits. destruct Hdigits as [-> _]. reflexivity. }
  unfold str_int. destruct (Z.to_int n) as [d|d];
    cbn [NilZero.string_of_int has_char].
  - apply Hu.
  - rewrite Hminus. apply Hu.
Qed.

Lemma str_int_inj (n n' : Z) : str_int n = str_int n' -> n = n'.
Proof.
  unfold str_int. intros Heq.
  apply DecimalZ.to_int_inj.
  assert (Hnn : forall z, Z.to_int z <> Decimal.Pos Decimal.Nil
                          /\ Z.to_int z <> Decimal.Neg Decimal.Nil).
  { intros z. destruct z as [|p|p]; cbn [Z.to_int]; split; try discriminate;
      intros Hbad; injection Hbad as Hbad;
      apply (DecimalPos.Unsigned.to_uint_nonnil p); exact Hbad. }
  apply (f_equal NilZero.int_of_string) in Heq.
  rewrite !NilZero.isi in Heq by apply Hnn.
  injection Heq as Heq. exact Heq.
Qed.

(** X11. For the sensors of one camera, the identifier under which the handler
    is registered and the composed name used in the mail each determine the
    sensor kind and the channel: two sensors built for the same camera with
    the same identifier, or with the same name, have the same kind and the
    same channel. *)
Theorem sensor_id_determines_channel :
  forall (cam : HikCamObject) (info1 info2 : email_info)
         (now1 now2 : datetime) (sensor1 sensor2 : string)
         (channel1 channel2 : Z),
    (_id (HikSensor_init sensor1 channel1 cam info1 now1)
       = _id (HikSensor_init sensor2 channel2 cam info2 now2) ->
     sensor1 = sensor2 /\ channel1 = channel2)
    /\ (_name (HikSensor_init sensor1 channel1 cam info1 now1)
          = _name (HikSensor_init sensor2 channel2 cam info2 now2) ->
        sensor1 = sensor2 /\ channel1 = channel2).
Proof.
  intros cam info1 info2 now1 now2 sensor1 sensor2 channel1 channel2.
  cbn [_id _name HikSensor_init]. split; intros Heq.
  - apply append_inj_l in Heq. cbn [append] in Heq.
    injection Heq as Heq.
    apply (split_at_last_sep "."%char) in Heq;
      [| apply str_int_chars; reflexivity ..].
    destruct Heq as (-> & Heq). split; [reflexivity | apply str_int_inj, Heq].
  - apply append_inj_l in Heq. cbn [append] in Heq.
    injection Heq as Heq.
    apply (split_at_last_sep " "%char) in Heq;
      [| apply str_int_chars; reflexivity ..].
    destruct Heq as (-> & Heq). split; [reflexivity | apply str_int_inj, Heq].
Qed.

Lemma sensor_id_determines_channel_witness :
  "Motion" = "Motion" /\ 1 = 1.
Proof.
  exact (proj1 (sensor_id_determines_channel Sample.driveway Sample.mailbox
                  Sample.mailbox 0 5 "Motion" "Motion" 1 1) eq_refl).
Defined.

(** ** Startup *)

Ltac startup_reduce :=
  cbn [Startup.bind Startup.lift Startup.tell Startup.ret app].

Ltac startup_step connect :=
  match goal with
  | |- context [connect ?a ?b ?c ?d] =>
      let dev := fresh "dev" in
      destruct (connect a b c d) as [dev|] eqn:?
  | |- context [subscript2 ?c ?a ?b] =>
      let v := fresh "v" in
      destruct (subscript2 c a b) as [?|v] eqn:?
  | |- context [subscript4 ?c ?k1 ?k2 ?k3 ?k4] =>
      let v := fresh "ip" in
      destruct (subscript4 c k1 k2 k3 k4) as [?|v] eqn:?
  end; startup_reduce.

Lemma gate_open_fires_iff (msg : string) (w : world) (self : HikSensor)
    (t : datetime) :
  truthy (callback_url (_cam self)) = true ->
  sensor_state w = true ->
  _sensor_last_trigger self = Some t ->
  (fired (effects (update_callback msg w self)) = true
   <-> sixty_seconds < elapsed w t).
Proof.
  intros Hu Ha Hl.
  handler_cases w self; same_record; try congruence; arith_facts;
    split; intros Hx; first [reflexivity | lia | discriminate Hx].
Qed.

Lemma sensor_specs_camera (cameras : list (HikCamObject * device))
    (sensor : string) (channel : Z) (cam : HikCamObject) :
  In (sensor, channel, cam) (sensor_specs cameras) ->
  In cam (map fst cameras).
Proof.
  unfold sensor_specs. intros Hin.
  apply in_flat_map in Hin. destruct Hin as (cd & Hcd & Hin).
  apply in_flat_map in Hin. destruct Hin as (kv & _ & Hin).
  apply in_map_iff in Hin. destruct Hin as (ch & Heq & _).
  injection Heq as _ _ <-. apply in_map. exact Hcd.
Qed.

Lemma entities_from_ids (info : email_info) (now : nat -> datetime)
    (specs : list (string * Z * HikCamObject)) :
  forall k,
    map _id (entities_from k info now specs)
    = map (fun s : string * Z * HikCamObject =>
             sensor_id (snd s) (fst (fst s)) (snd (fst s))) specs.
Proof.
  induction specs as [|[[sensor channel] cam] rest IH]; intros k.
  - reflexivity.
  - cbn [entities_from map]. rewrite IH. reflexivity.
Qed.

Lemma entities_from_info (info : email_info) (now : nat -> datetime)
    (specs : list (string * Z * HikCamObject)) :
  forall k e,
    In e (entities_from k info now specs) ->
    _email_info e = info
    /\ exists j sensor channel cam,
         In (sensor, channel, cam) specs
         /\ e = HikSensor_init sensor channel cam info (now j).
Proof.
  induction specs as [|[[sensor channel] cam] rest IH]; intros k e Hin.
  - destruct Hin.
  - destruct Hin as [<- | Hin].
    + split; [reflexivity|]. exists k, sensor, channel, cam.
      split; [left; reflexivity | reflexivity].
    + destruct (IH _ _ Hin) as (Hi & j & s & c & cm & Hs & He).
      split; [exact Hi|]. exists j, s, c, cm. split; [right; exact Hs | exact He].
Qed.

Lemma registered_callbacks (specs : list (string * Z * HikCamObject)) :
  registered
    (map (fun s : string * Z * HikCamObject =>
            AddUpdateCallback (sensor_id (snd s) (fst (fst s)) (snd (fst s))))
         specs)
  = map (fun s : string * Z * HikCamObject =>
           sensor_id (snd s) (fst (fst s)) (snd (fst s))) specs.
Proof.
  induction specs as [|s rest IH]; [reflexivity|].
  cbn [map registered flat_map app]. f_equal. exact IH.
Qed.

Lemma started_callbacks (specs : list (string * Z * HikCamObject)) :
  started
    (map (fun s : string * Z * HikCamObject =>
            AddUpdateCallback (sensor_id (snd s) (fst (fst s)) (snd (fst s))))
         specs) = []
  /\ contacted
       (map (fun s : string * Z * HikCamObject =>
               AddUpdateCallback (sensor_id (snd s) (fst (fst s)) (snd (fst s))))
            specs) = [].
Proof.
  induction specs as [|s rest [IH1 IH2]]; split; try reflexivity; assumption.
Qed.

Lemma entities_from_length (info : email_info) (now : nat -> datetime)
    (specs : list (string * Z * HikCamObject)) :
  forall k, List.length (entities_from k info now specs) = List.length specs.
Proof.
  induction specs as [|[[sensor channel] cam] rest IH]; intros k.
  - reflexivity.
  - cbn [entities_from List.length]. rewrite IH. reflexivity.
Qed.

Lemma typed_email_sender (raw : raw_email_info) (info : email_info) :
  typed_email raw = Some info ->
  raw_send_from raw = raw_user raw ->
  send_from info = user info.
Proof.
  destruct raw as [sv us pw to fr]. unfold typed_email.
  cbn [raw_server raw_user raw_password raw_send_to raw_send_from].
  intros Htyped Hsame. subst fr.
  destruct sv; try discriminate Htyped.
  destruct us; try discriminate Htyped.
  destruct pw; try discriminate Htyped.
  destruct to; try discriminate Htyped.
  destruct (strings_of items); try discriminate Htyped.
  cbn [option_map] in Htyped. injection Htyped as <-. reflexivity.
Qed.

Ltac startup_result email cameras specs tr :=
  lazymatch goal with
  | |- (inr (?e, ?c, ?s), ?t) = _ -> _ =>
      let Hrun := fresh "Hrun" in
      intros Hrun;
      assert (email = e) by congruence;
      assert (cameras = c) by congruence;
      assert (specs = s) by congruence;
      assert (tr = t) by congruence;
      clear Hrun; subst email cameras specs tr
  end.

Section Startup_facts.

Variable py_repr : yaml -> string.
Variable connect : string -> yaml -> yaml -> yaml -> option device.

(** X12. Every sensor [main] constructs belongs to a camera whose callback URL
    is the station URL followed by the camera's key, hence non-empty: for
    these sensors the handler's callback-URL gate is always open, and an
    active event fires exactly when more than 60 seconds have elapsed since
    the stored trigger time. *)
Theorem main_sensors_have_callback_url :
  forall (config : yaml) (email : raw_email_info)
         (cameras : list (HikCamObject * device))
         (specs : list (string * Z * HikCamObject))
         (tr : list startup_effect),
    main py_repr connect config = (inr (email, cameras, specs), tr) ->
    forall sensor channel cam,
      In (sensor, channel, cam) specs ->
      truthy (callback_url cam) = true
      /\ (exists key, In key camera_keys
                      /\ station_url py_repr config key = Some (callback_url cam))
      /\ forall (self : HikSensor) msg w t,
           _cam self = cam ->
           sensor_state w = true ->
           _sensor_last_trigger self = Some t ->
           (fired (effects (update_callback msg w self)) = true
            <-> sixty_seconds < elapsed w t).
Proof.
  intros config email cameras specs tr.
  unfold main, HikCamObject_init. startup_reduce.
  repeat (startup_step connect; try discriminate).
  startup_result email cameras specs tr.
  intros sensor channel cam Hin.
  apply sensor_specs_camera in Hin. cbn [map fst] in Hin.
  assert (Hurl : truthy (callback_url cam) = true
                 /\ exists key, In key camera_keys
                      /\ station_url py_repr config key = Some (callback_url cam)).
  { unfold station_url, camera_keys.
    repeat match goal with
    | H : subscript2 config "nas" _ = inr _ |- _ => rewrite H; clear H
    end.
    destruct Hin as [<- | [<- | [<- | []]]]; (split; [reflexivity|]);
      cbn [callback_url].
    - exists "back_door". split; [cbn; tauto | reflexivity].
    - exists "driveway". split; [cbn; tauto | reflexivity].
    - exists "patio". split; [cbn; tauto | reflexivity]. }
  destruct Hurl as (Htruthy & Hkey).
  split; [exact Htruthy|]. split; [exact Hkey|].
  intros self msg w t Hcam Hon Hlast.
  apply gate_open_fires_iff; [rewrite Hcam; exact Htruthy | exact Hon | exact Hlast].
Qed.

(** X13. When [main] completes, it has contacted three cameras and started
    the stream of each, it has constructed exactly one sensor per channel
    entry of each camera's event states, in order, and registered one
    handler per sensor under the sensor's identifier; the sender of the
    mail settings is the SMTP user.  When the mail settings are strings and
    a list of strings, every sensor object carries them. *)
Theorem main_registers_every_channel :
  forall (config : yaml) (email : raw_email_info)
         (cameras : list (HikCamObject * device))
         (specs : list (string * Z * HikCamObject))
         (tr : list startup_effect),
    main py_repr connect config = (inr (email, cameras, specs), tr) ->
    specs = sensor_specs cameras
    /\ List.length cameras = 3%nat
    /\ started tr = contacted tr
    /\ List.length (started tr) = 3%nat
    /\ raw_send_from email = raw_user email
    /\ forall (info : email_info) (now : nat -> datetime),
         typed_email email = Some info ->
         send_from info = user info
         /\ map _id (entities_from 0 info now specs) = registered tr
         /\ List.length (entities_from 0 info now specs) = List.length specs
         /\ forall e, In e (entities_from 0 info now specs) ->
                      _email_info e = info.
Proof.
  intros config email cameras specs tr.
  unfold main, HikCamObject_init. startup_reduce.
  repeat (startup_step connect; try discriminate).
  startup_result email cameras specs tr.
  rewrite app_nil_r.
  set (cams := [_; _; _]).
  assert (Hreg : forall pre,
    registered
      (PrintConfig config :: pre ++
       map (fun s : string * Z * HikCamObject =>
              AddUpdateCallback (sensor_id (snd s) (fst (fst s)) (snd (fst s))))
           (sensor_specs cams))%list
    = (registered pre ++
       map (fun s : string * Z * HikCamObject =>
              sensor_id (snd s) (fst (fst s)) (snd (fst s)))
           (sensor_specs cams))%list).
  { intros pre. unfold registered at 1. cbn [flat_map app].
    rewrite flat_map_app. fold (registered pre).
    f_equal. apply registered_callbacks. }
  split; [reflexivity|]. split; [reflexivity|].
  destruct (started_callbacks (sensor_specs cams)) as (Hst & Hct).
  split.
  { unfold started, contacted in *. cbn [flat_map app].
    rewrite Hst, Hct. reflexivity. }
  split.
  { unfold started in *. cbn [flat_map app]. rewrite Hst. reflexivity. }
  split; [reflexivity|].
  intros info now Htyped.
  split.
  { apply (typed_email_sender _ _ Htyped). reflexivity. }
  split.
  { rewrite entities_from_ids.
    change (PrintConfig config :: ?a :: ?b :: ?c :: ?d :: ?e :: ?f :: ?g :: ?h
              :: ?i :: ?rest)
      with (PrintConfig config :: ([a; b; c; d; e; f; g; h; i] ++ rest)%list).
    rewrite Hreg. reflexivity. }
  split.
  { apply entities_from_length. }
  intros e Hin. apply (entities_from_info _ _ _ _ _ Hin).
Qed.

(** X14. [main] reads every general setting before it constructs the first
    camera, and every camera's address before its sensor loop.  So when a
    general setting is missing from the loaded configuration, [main] raises
    and has neither contacted a camera nor registered a handler; and when
    the address of one of the three cameras is missing, [main] raises and
    has registered no handler. *)
Theorem main_missing_setting_registers_nothing :
  forall config : yaml,
    ((exists a b e, In (a, b) general_settings
                    /\ subscript2 config a b = inl e) ->
       (exists e, fst (main py_repr connect config) = inl e)
       /\ contacted (snd (main py_repr connect config)) = []
       /\ registered (snd (main py_repr connect config)) = [])
    /\ ((exists key e, In key camera_keys
                       /\ subscript4 config "ipCameras" "cameras" key "ip"
                          = inl e) ->
          (exists e, fst (main py_repr connect config) = inl e)
          /\ registered (snd (main py_repr connect config)) = []).
Proof.
  intros config. split.
  - intros (a & b & e & Hin & Hmiss).
    unfold general_settings in Hin. cbn [In] in Hin.
    destruct (main py_repr connect config) as [r tr] eqn:Hrun.
    cbn [fst snd]. revert Hrun.
    unfold main, HikCamObject_init. startup_reduce.
    repeat (startup_step connect).
    all: first
      [ solve [ intros [= <- <-];
                split; [eexists; reflexivity | split; reflexivity] ]
      | exfalso ].
    all: repeat match goal with
         | H : _ \/ _ |- _ => destruct H
         | H : False |- _ => destruct H
         | H : (_, _) = (_, _) |- _ => injection H as <- <-
         end; congruence.
  - intros (key & e & Hin & Hmiss).
    unfold camera_keys in Hin. cbn [In] in Hin.
    destruct (main py_repr connect config) as [r tr] eqn:Hrun.
    cbn [fst snd]. revert Hrun.
    unfold main, HikCamObject_init. startup_reduce.
    repeat (startup_step connect).
    all: first
      [ solve [ intros [= <- <-];
                split; [eexists; reflexivity | reflexivity] ]
      | exfalso ].
    all: repeat match goal with
         | H : _ \/ _ |- _ => destruct H
         | H : False |- _ => destruct H
         end; subst key; congruence.
Qed.

End Startup_facts.

Lemma main_sensors_have_callback_url_witness :
  truthy "http://10.0.0.2:5000/webapi/driveway" = true.
Proof.
  refine (proj1 (main_sensors_have_callback_url SampleStartup.repr
                   SampleStartup.answering SampleStartup.config
                   _ _ _ _ eq_refl "Motion" 1
                   {| name := "cam http://10.0.0.12";
                      cam_id := "id http://10.0.0.12";
                      callback_url := "http://10.0.0.2:5000/webapi/driveway" |}
                   _)).
  vm_compute. tauto.
Defined.

Lemma main_registers_every_channel_witness :
  map _id
    (entities_from 0 Sample.mailbox SampleStartup.clock
       (SampleStartup.specs_of
          (main SampleStartup.repr SampleStartup.answering
             SampleStartup.config)))
  = registered (snd (main SampleStartup.repr SampleStartup.answering
                       SampleStartup.config)).
Proof.
  eassert (Hrun : main SampleStartup.repr SampleStartup.answering
                    SampleStartup.config = (inr (_, _, _), _))
    by (vm_compute; reflexivity).
  pose proof (main_registers_every_channel SampleStartup.repr
                SampleStartup.answering SampleStartup.config
                _ _ _ _ Hrun) as (_ & _ & _ & _ & _ & H).
  rewrite Hrun. unfold SampleStartup.specs_of. cbn [fst snd].
  exact (proj1 (proj2 (H Sample.mailbox SampleStartup.clock eq_refl))).
Defined.

Lemma main_missing_setting_registers_nothing_witness :
  ((exists e, fst (main SampleStartup.repr SampleStartup.answering (YMap []))
              = inl e)
   /\ contacted (snd (main SampleStartup.repr SampleStartup.answering
                        (YMap []))) = []
   /\ registered (snd (main SampleStartup.repr SampleStartup.answering
                         (YMap []))) = [])
  /\ ((exists e, fst (main SampleStartup.repr SampleStartup.answering
                        SampleStartup.config_without_driveway) = inl e)
      /\ registered (snd (main SampleStartup.repr SampleStartup.answering
                            SampleStartup.config_without_driveway)) = [])
  /\ started (snd (main SampleStartup.repr SampleStartup.answering
                     SampleStartup.config_without_driveway))
     = ["http://10.0.0.11"].
Proof.
  split; [| split; [| reflexivity]].
  - apply (proj1 (main_missing_setting_registers_nothing SampleStartup.repr
                    SampleStartup.answering (YMap []))).
    exists "smtp", "server", (KeyError "smtp").
    split; [cbn; tauto | reflexivity].
  - apply (proj2 (main_missing_setting_registers_nothing SampleStartup.repr
                    SampleStartup.answering
                    SampleStartup.config_without_driveway)).
    exists "driveway", (KeyError "driveway").
    split; [cbn; tauto | reflexivity].
Defined.
